(** * Secure BLE file transfer: the sender and the receiver application

    A shallow embedding of the session logic of [sendersapp.js] (the sender)
    and of the receiver application, and the properties of the protocol
    description that can be settled on it.

    A JavaScript string whose code units are all below 256 is a [string];
    where [base64.decode] can return a code unit above 255 its result is a
    list of code units.  A [Uint8Array] is a [list byte]; the [useRef] cells
    and the React state are the fields of one record per application;
    awaiting a promise gives an [outcome], a value or the message of what
    was thrown.  An [async] function is cut at its [await]s: what runs
    between two of them is one step, and the event loop chooses which
    continuation, callback or button handler runs next.  A value handed to
    a characteristic for writing is appended to a log; the peer's monitor
    is given values of that log. *)

From Stdlib Require Import NArith ZArith List String Ascii Bool Arith Lia.
From Stdlib Require Import PrimFloat FloatOps SpecFloat.
From Stdlib.Strings Require Import Byte.
Import ListNotations.

Local Open Scope string_scope.

(** ** JavaScript string primitives *)

Module Js.

(** [s.slice(n)] for [0 <= n]. *)
Fixpoint drop (n : nat) (s : string) : string :=
  match n, s with
  | O, _ => s
  | S _, EmptyString => EmptyString
  | S n', String _ s' => drop n' s'
  end.

(** [s.slice(0, n)] for [0 <= n]. *)
Fixpoint take (n : nat) (s : string) : string :=
  match n, s with
  | O, _ => EmptyString
  | S _, EmptyString => EmptyString
  | S n', String c s' => String c (take n' s')
  end.

(** [s.slice(a, b)] for [0 <= a] and [0 <= b]: the characters at positions
    [a], ..., [b - 1] that exist. *)
Definition slice (a b : nat) (s : string) : string :=
  take (b - a) (drop a s).

(** [chunks.join('')]. *)
Definition join (chunks : list string) : string :=
  fold_right append EmptyString chunks.

Definition charCode (c : ascii) : N := N_of_ascii c.
Definition fromCharCode (n : N) : ascii := ascii_of_N n.

(** The code units of a string. *)
Fixpoint units (s : string) : list N :=
  match s with
  | EmptyString => []
  | String c s' => charCode c :: units s'
  end.

(** The string of a list of code units, when none of them is above 255. *)
Fixpoint narrow (us : list N) : option string :=
  match us with
  | [] => Some EmptyString
  | u :: us' =>
      if (u <? 256)%N
      then option_map (String (fromCharCode u)) (narrow us')
      else None
  end.

(** [Uint8Array.from(str, (c) => c.charCodeAt(0))]: every code unit is
    taken modulo 256. *)
Definition toUint8Array (us : list N) : list byte :=
  map (fun u => match Byte.of_N (u mod 256) with
                | Some b => b
                | None => x00
                end) us.

End Js.

(** ** Promises *)

(** What awaiting a promise gives: its value, or the thrown [Error] with its
    message. *)
Inductive outcome (A : Type) : Type :=
| Resolved (value : A)
| Rejected (message : string).
Arguments Resolved {A} value.
Arguments Rejected {A} message.

(** [characteristic?.value] used as a condition: [null], [undefined] and the
    empty string are falsy. *)
Definition truthy (value : option string) : option string :=
  match value with
  | Some EmptyString => None
  | other => other
  end.

(** ** The transport encoding ([react-native-base64])

    The package is a dependency, not part of the repository; the model
    follows its [encode] and [decode] statement by statement.  Both are
    [do ... while (i < input.length)] loops, so both run their body once on
    the empty string; [decode] throws on a character outside [keyStr] and
    on nothing else: a group that is short of four characters is filled up
    with index 0 ([keyStr.indexOf('')]), and the padding sign is index 64
    wherever it stands. *)

Module Base64.

Definition keyStr : string :=
  "ABCDEFGHIJKLMNOPQRSTUVWXYZabcdefghijklmnopqrstuvwxyz0123456789+/=".

Definition charAt (i : N) : ascii :=
  match String.get (N.to_nat i) keyStr with
  | Some c => c
  | None => "="%char
  end.

Fixpoint indexFrom (i : N) (c : ascii) (s : string) : option N :=
  match s with
  | EmptyString => None
  | String d s' => if Ascii.eqb c d then Some i else indexFrom (N.succ i) c s'
  end.

(** [keyStr.indexOf(c)], [None] for -1. *)
Definition indexOf (c : ascii) : option N := indexFrom 0 c keyStr.

Definition enc1 (chr1 : N) : N := N.shiftr chr1 2.
Definition enc2 (chr1 chr2 : N) : N :=
  N.lor (N.shiftl (N.land chr1 3) 4) (N.shiftr chr2 4).
Definition enc3 (chr2 chr3 : N) : N :=
  N.lor (N.shiftl (N.land chr2 15) 2) (N.shiftr chr3 6).
Definition enc4 (chr3 : N) : N := N.land chr3 63.

Definition quad (e1 e2 e3 e4 : N) (rest : string) : string :=
  String (charAt e1) (String (charAt e2)
    (String (charAt e3) (String (charAt e4) rest))).

(** The iterations of the loop of [encode] on what is left of a text that
    is not empty. *)
Fixpoint encodeLoop (input : string) : string :=
  match input with
  | EmptyString => EmptyString
  | String a EmptyString =>
      let chr1 := Js.charCode a in
      quad (enc1 chr1) (enc2 chr1 0) 64 64 EmptyString
  | String a (String b EmptyString) =>
      let chr1 := Js.charCode a in
      let chr2 := Js.charCode b in
      quad (enc1 chr1) (enc2 chr1 chr2) (enc3 chr2 0) 64 EmptyString
  | String a (String b (String c rest)) =>
      let chr1 := Js.charCode a in
      let chr2 := Js.charCode b in
      let chr3 := Js.charCode c in
      quad (enc1 chr1) (enc2 chr1 chr2) (enc3 chr2 chr3) (enc4 chr3)
           (encodeLoop rest)
  end.

(** [base64.encode]: on the empty text the one iteration reads three times
    [NaN] and gives [AA==]. *)
Definition encode (input : string) : string :=
  match input with
  | EmptyString => quad 0 0 64 64 EmptyString
  | _ => encodeLoop input
  end.

Definition chr1 (e1 e2 : N) : N := N.lor (N.shiftl e1 2) (N.shiftr e2 4).
Definition chr2 (e2 e3 : N) : N :=
  N.lor (N.shiftl (N.land e2 15) 4) (N.shiftr e3 2).
Definition chr3 (e3 e4 : N) : N := N.lor (N.shiftl (N.land e3 3) 6) e4.

(** The message of the error [decode] throws. *)
Definition invalid : string :=
  "There were invalid base64 characters in the input text."
  ++ String (ascii_of_nat 10)
       "Valid base64 characters are A-Z, a-z, 0-9, '+', '/',and '='"
  ++ String (ascii_of_nat 10) "Expect errors in decoding.".

(** The test [base64test.exec(input)]: a character outside [keyStr]. *)
Fixpoint hasInvalid (input : string) : bool :=
  match input with
  | EmptyString => false
  | String c s' =>
      match indexOf c with
      | Some _ => hasInvalid s'
      | None => true
      end
  end.

(** The index of a character of a text that has passed the test. *)
Definition index (c : ascii) : N :=
  match indexOf c with
  | Some e => e
  | None => 0
  end.

(** What one iteration of the loop of [decode] appends. *)
Definition group (e1 e2 e3 e4 : N) (rest : list N) : list N :=
  chr1 e1 e2
  :: (if (e3 =? 64)%N then [] else [chr2 e2 e3])
  ++ (if (e4 =? 64)%N then [] else [chr3 e3 e4])
  ++ rest.

(** The iterations of the loop of [decode] on what is left of a text that
    is not empty; [charAt] past the end gives the empty string, whose index
    in [keyStr] is 0. *)
Fixpoint decodeLoop (input : string) : list N :=
  match input with
  | EmptyString => []
  | String a EmptyString => group (index a) 0 0 0 []
  | String a (String b EmptyString) => group (index a) (index b) 0 0 []
  | String a (String b (String c EmptyString)) =>
      group (index a) (index b) (index c) 0 []
  | String a (String b (String c (String d rest))) =>
      group (index a) (index b) (index c) (index d) (decodeLoop rest)
  end.

(** [base64.decode]: the code units of the result, or the exception. *)
Definition decode (input : string) : outcome (list N) :=
  if hasInvalid input then Rejected invalid
  else Resolved match input with
                | EmptyString => group 0 0 0 0 []
                | _ => decodeLoop input
                end.

End Base64.

(** ** The packages behind interfaces *)

(** [react-native-aes-crypto], called by both applications as
    [AES.encrypt(text, key, iv, 'aes-256-gcm')] and
    [AES.decrypt(cipher, key, iv, 'aes-256-gcm')].  The key argument is
    whatever the [aesKey] cell holds, [null] included.  [AES_decrypt_wide]
    is [AES.decrypt] on a cipher text and an IV that hold a code unit above
    255, both given by their code units. *)
Record AesLib : Type := {
  AES_encrypt : string -> option string -> string -> outcome string;
  AES_decrypt : string -> option string -> string -> outcome string;
  AES_decrypt_wide : list N -> option string -> list N -> outcome string
}.

(** What the package promises: decrypting under the key and IV used for
    encrypting gives the text back. *)
Definition lawful (aes : AesLib) : Prop :=
  forall text key iv cipher,
    AES_encrypt aes text (Some key) iv = Resolved cipher ->
    AES_decrypt aes cipher (Some key) iv = Resolved text.

(** A package that decrypts nothing without a key. *)
Definition keyed (aes : AesLib) : Prop :=
  (forall cipher iv, exists m, AES_decrypt aes cipher None iv = Rejected m)
  /\ (forall cipher iv, exists m,
        AES_decrypt_wide aes cipher None iv = Rejected m).

(** [tweetnacl]: [nacl.box.before(theirPublicKey, mySecretKey)], which
    throws on keys of the wrong size. *)
Record NaclLib : Type := {
  box_before : list byte -> list byte -> outcome (list byte)
}.

Record KeyPair : Type := {
  publicKey : list byte;
  secretKey : list byte
}.

(** ** What the two files import for the key derivation

    Both files have [import { sha256 } from 'crypto-js'] and use [Buffer]
    without importing it.  The package exports [SHA256] and no [sha256]:
    the imported binding is [undefined], and calling it throws a
    [TypeError].  [Buffer] is a global of the engine the application runs
    on, or it is not defined and naming it throws a [ReferenceError].  The
    texts of the two messages are the engine's. *)

Module Imports.

Record Engine : Type := {
  (** [Buffer.from(bytes).toString('hex')], where the global exists *)
  Buffer_hex : option (list byte -> string);
  (** the message of the [ReferenceError] for [Buffer] *)
  notDefined : string;
  (** the message of the [TypeError] for the call of [sha256] *)
  notAFunction : string
}.

(** [sha256(message).toString()], with [sha256] as the files import it. *)
Definition sha256 (engine : Engine) (message : string) : outcome string :=
  Rejected (notAFunction engine).

(** The body of the [try] of [deriveAESKey], up to the assignment: the
    value of [aesKeyHex]. *)
Definition aesKeyHex (engine : Engine) (sharedSecretUint8 : list byte)
    : outcome string :=
  match Buffer_hex engine with
  | None => Rejected (notDefined engine)
  | Some toHex =>
      let sharedSecretHex := toHex sharedSecretUint8 in
      match sha256 engine sharedSecretHex with
      | Resolved hash => Resolved (Js.slice 0 64 hash)
      | Rejected m => Rejected m
      end
  end.

End Imports.

(** ** Progress

    Both applications show [Math.round((a / b) * 100)], computed on
    numbers that are IEEE 754 doubles. *)

(** The result of [Math.round]: an integer, or [Infinity] or [NaN]. *)
Inductive Progress : Type :=
| Percent (n : Z)
| NotFinite.

(** The double of a length. *)
Definition double (n : nat) : float :=
  SF2Prim (binary_normalize prec emax (Z.of_nat n) 0 false).

(** [Math.round]: the nearest integer, the upper one of two equally near. *)
Definition Math_round (x : float) : Progress :=
  match Prim2SF x with
  | S754_zero _ => Percent 0
  | S754_finite s m e =>
      let v := if s then Z.neg m else Z.pos m in
      Percent (if (0 <=? e)%Z then v * 2 ^ e
               else (v + 2 ^ (- e - 1)) / 2 ^ (- e))%Z
  | S754_infinity _ | S754_nan => NotFinite
  end.

(** [Math.round((a / b) * 100)]. *)
Definition percentOf (a b : nat) : Progress :=
  Math_round (PrimFloat.mul (PrimFloat.div (double a) (double b)) (double 100)).

(** ** The sender's scan for devices

    [startScan] and the callbacks it registers, on the part of the state
    they touch.  A device is the object the scan reports, of which the code
    reads [id] and [name]. *)

Module Scan.

Record Device : Type := {
  id : string;
  name : option string
}.

Record State : Type := {
  isScanning : bool;
  devices : list Device;
  connectionStatus : string;
  error : option string;
  alerts : list string
}.

Definition initial : State := {|
  isScanning := false;
  devices := [];
  connectionStatus := "Disconnected";
  error := None;
  alerts := []
|}.

Definition setError (e : option string) (st : State) : State :=
  {| isScanning := isScanning st; devices := devices st;
     connectionStatus := connectionStatus st; error := e;
     alerts := alerts st |}.

Definition alert (text : string) (st : State) : State :=
  {| isScanning := isScanning st; devices := devices st;
     connectionStatus := connectionStatus st; error := error st;
     alerts := alerts st ++ [text] |}.

Definition setDevices (ds : list Device) (st : State) : State :=
  {| isScanning := isScanning st; devices := ds;
     connectionStatus := connectionStatus st; error := error st;
     alerts := alerts st |}.

Definition setScanning (b : bool) (status : string) (st : State) : State :=
  {| isScanning := b; devices := devices st;
     connectionStatus := status; error := error st;
     alerts := alerts st |}.

(** Where the application runs: on Android, with what
    [PermissionsAndroid.requestMultiple] comes to (the statuses in
    [Object.values(granted)], or the exception), or elsewhere. *)
Inductive Platform : Type :=
| Android (granted : outcome (list string))
| Other.

(** [PermissionsAndroid.RESULTS.GRANTED]. *)
Definition GRANTED : string := "granted".

(** [requestPermissions]. *)
Definition requestPermissions (os : Platform) (st : State) : bool * State :=
  match os with
  | Android (Resolved granted) =>
      let allGranted :=
        forallb (fun status => String.eqb status GRANTED) granted in
      if negb allGranted
      then (false,
            alert "Bluetooth and Location permissions are required." st)
      else (true, st)
  | Android (Rejected m) =>
      (false, setError (Some ("Permission request error: " ++ m)) st)
  | Other => (true, st)
  end.

(** [startScan], up to the registration of the callback and of the timer. *)
Definition startScan (os : Platform) (st : State) : State :=
  let st := setError None st in
  let (permission, st) := requestPermissions os st in
  if negb permission then st
  else
    let st := setDevices [] st in
    setScanning true "Scanning..." st.

(** The updater given to [setDevices] in the scan callback. *)
Definition addDevice (device : Device) (prevDevices : list Device)
    : list Device :=
  match find (fun d => String.eqb (id d) (id device)) prevDevices with
  | Some _ => prevDevices
  | None => prevDevices ++ [device]
  end.

(** The callback given to [manager.startDeviceScan]. *)
Definition onScan (err : option string) (device : option Device)
    (st : State) : State :=
  match err with
  | Some m =>
      let st := setError (Some ("Scan error: " ++ m)) st in
      setScanning false "Disconnected" st
  | None =>
      match device with
      | Some device =>
          match truthy (name device) with
          | Some _ => setDevices (addDevice device (devices st)) st
          | None => st
          end
      | None => st
      end
  end.

(** The function given to [setTimeout]. *)
Definition onTimeout (st : State) : State :=
  setScanning false "Scan stopped" st.

Inductive Event : Type :=
| PressScan (os : Platform)
| Report (err : option string) (device : option Device)
| Timeout.

Definition step (st : State) (ev : Event) : State :=
  match ev with
  | PressScan os => startScan os st
  | Report err device => onScan err device st
  | Timeout => onTimeout st
  end.

Definition run (st : State) (evs : list Event) : State :=
  fold_left step evs st.

Definition isPressScan (ev : Event) : bool :=
  match ev with
  | PressScan _ => true
  | _ => false
  end.

(** The scan reports [device], without an error and with a name. *)
Definition reports (evs : list Event) (device : Device) : Prop :=
  In (Report None (Some device)) evs /\ truthy (name device) <> None.

End Scan.

(** ** The search for the two characteristics

    The loop over [services()] that [connectToDevice] of the sender and the
    [onDeviceConnected] callback of the receiver both run. *)

Module Discovery.

Definition SERVICE_UUID : string := "12345678-1234-5678-1234-56789abcdef0".
Definition HANDSHAKE_CHAR_UUID : string :=
  "12345678-1234-5678-1234-56789abcdef1".
Definition TRANSFER_CHAR_UUID : string :=
  "12345678-1234-5678-1234-56789abcdef2".

(** [toLowerCase] on a code unit below 256: the letters A to Z, and the
    capital letters of Latin-1 (U+00C0 to U+00DE but the sign U+00D7). *)
Definition lowerChar (c : ascii) : ascii :=
  let n := Js.charCode c in
  if ((65 <=? n) && (n <=? 90)
      || (192 <=? n) && (n <=? 222) && negb (n =? 215))%N
  then Js.fromCharCode (n + 32)
  else c.

Fixpoint toLowerCase (s : string) : string :=
  match s with
  | EmptyString => EmptyString
  | String c s' => String (lowerChar c) (toLowerCase s')
  end.

(** A characteristic: [handle] tells apart two objects with one UUID. *)
Record Characteristic : Type := {
  handle : nat;
  uuid : string
}.

(** A service, with what [service.characteristics()] comes to. *)
Record Service : Type := {
  serviceUuid : string;
  characteristics : outcome (list Characteristic)
}.

Definition isService (service : Service) : bool :=
  String.eqb (toLowerCase (serviceUuid service)) (toLowerCase SERVICE_UUID).

Definition isHandshake (char : Characteristic) : bool :=
  String.eqb (toLowerCase (uuid char)) (toLowerCase HANDSHAKE_CHAR_UUID).

Definition isTransfer (char : Characteristic) : bool :=
  String.eqb (toLowerCase (uuid char)) (toLowerCase TRANSFER_CHAR_UUID).

(** The two variables of the loop. *)
Record Found : Type := {
  handshakeCharacteristic : option Characteristic;
  transferCharacteristic : option Characteristic
}.

(** The body of the inner loop. *)
Definition inner (found : Found) (char : Characteristic) : Found :=
  if isHandshake char
  then {| handshakeCharacteristic := Some char;
          transferCharacteristic := transferCharacteristic found |}
  else if isTransfer char
  then {| handshakeCharacteristic := handshakeCharacteristic found;
          transferCharacteristic := Some char |}
  else found.

(** The outer loop; an exception of [service.characteristics()] ends it. *)
Fixpoint outer (services : list Service) (found : Found) : outcome Found :=
  match services with
  | [] => Resolved found
  | service :: rest =>
      if isService service
      then match characteristics service with
           | Resolved chars => outer rest (fold_left inner chars found)
           | Rejected m => Rejected m
           end
      else outer rest found
  end.

Definition findCharacteristics (services : list Service) : outcome Found :=
  outer services {| handshakeCharacteristic := None;
                    transferCharacteristic := None |}.

(** The test after the loop:
    [!handshakeCharacteristic || !transferCharacteristic]. *)
Definition missing (found : Found) : bool :=
  match handshakeCharacteristic found, transferCharacteristic found with
  | Some _, Some _ => false
  | _, _ => true
  end.

(** [char] is a characteristic of a service with the service UUID. *)
Definition offered (services : list Service) (char : Characteristic) : Prop :=
  exists service chars,
    In service services /\ isService service = true
    /\ characteristics service = Resolved chars /\ In char chars.

(** What the loops have established once the services [seen] are done. *)
Definition settled (seen : list Service) (found : Found) : Prop :=
  (forall h, handshakeCharacteristic found = Some h ->
     offered seen h /\ isHandshake h = true)
  /\ (forall t, transferCharacteristic found = Some t ->
        offered seen t /\ isTransfer t = true)
  /\ (forall c, offered seen c -> isHandshake c = true ->
        handshakeCharacteristic found <> None)
  /\ (forall c, offered seen c -> isTransfer c = true ->
        transferCharacteristic found <> None).

End Discovery.


(** ** The sender ([sendersapp.js]) *)

Module Sender.

Definition CHUNK_SIZE : nat := 180.

(** The coroutine of [sendFileChunks]: the [await] it is suspended at, with
    the locals that are live there. *)
Inductive Task : Type :=
| Reading (uri : string)
| Encrypting (chunks : list string) (i : nat)
| Sleeping (chunks : list string) (i : nat) (encryptedChunkBase64 : string)
| Writing (chunks : list string) (i : nat)
| Returned.

Record State : Type := {
  devices : list string;
  connectedDevice : option string;
  connectionStatus : string;
  fileInfo : option string;
  transferProgress : Progress;
  error : option string;
  alerts : list string;
  ephemeralKeyPair : option KeyPair;
  sharedSecret : option (list byte);
  aesKey : option string;
  transferChar : bool;
  ackReceived : bool;
  (** values handed to the handshake and to the transfer characteristic
      for writing, oldest first *)
  handshakeWrites : list string;
  transferWrites : list string;
  (** the runs of [sendFileChunks] in progress or over, in starting order *)
  tasks : list Task
}.

Definition initial : State := {|
  devices := [];
  connectedDevice := None;
  connectionStatus := "Disconnected";
  fileInfo := None;
  transferProgress := Percent 0;
  error := None;
  alerts := [];
  ephemeralKeyPair := None;
  sharedSecret := None;
  aesKey := None;
  transferChar := false;
  ackReceived := true;
  handshakeWrites := [];
  transferWrites := [];
  tasks := []
|}.

Definition setError (e : option string) (st : State) : State :=
  {| devices := devices st; connectedDevice := connectedDevice st;
     connectionStatus := connectionStatus st; fileInfo := fileInfo st;
     transferProgress := transferProgress st; error := e;
     alerts := alerts st;
     ephemeralKeyPair := ephemeralKeyPair st; sharedSecret := sharedSecret st;
     aesKey := aesKey st; transferChar := transferChar st;
     ackReceived := ackReceived st;
     handshakeWrites := handshakeWrites st;
     transferWrites := transferWrites st; tasks := tasks st |}.

Definition setTransferProgress (p : Progress) (st : State) : State :=
  {| devices := devices st; connectedDevice := connectedDevice st;
     connectionStatus := connectionStatus st; fileInfo := fileInfo st;
     transferProgress := p; error := error st;
     alerts := alerts st;
     ephemeralKeyPair := ephemeralKeyPair st; sharedSecret := sharedSecret st;
     aesKey := aesKey st; transferChar := transferChar st;
     ackReceived := ackReceived st;
     handshakeWrites := handshakeWrites st;
     transferWrites := transferWrites st; tasks := tasks st |}.

Definition alert (text : string) (st : State) : State :=
  {| devices := devices st; connectedDevice := connectedDevice st;
     connectionStatus := connectionStatus st; fileInfo := fileInfo st;
     transferProgress := transferProgress st; error := error st;
     alerts := alerts st ++ [text];
     ephemeralKeyPair := ephemeralKeyPair st; sharedSecret := sharedSecret st;
     aesKey := aesKey st; transferChar := transferChar st;
     ackReceived := ackReceived st;
     handshakeWrites := handshakeWrites st;
     transferWrites := transferWrites st; tasks := tasks st |}.

Definition setAckReceived (b : bool) (st : State) : State :=
  {| devices := devices st; connectedDevice := connectedDevice st;
     connectionStatus := connectionStatus st; fileInfo := fileInfo st;
     transferProgress := transferProgress st; error := error st;
     alerts := alerts st;
     ephemeralKeyPair := ephemeralKeyPair st; sharedSecret := sharedSecret st;
     aesKey := aesKey st; transferChar := transferChar st;
     ackReceived := b;
     handshakeWrites := handshakeWrites st;
     transferWrites := transferWrites st; tasks := tasks st |}.

Definition setTasks (ts : list Task) (st : State) : State :=
  {| devices := devices st; connectedDevice := connectedDevice st;
     connectionStatus := connectionStatus st; fileInfo := fileInfo st;
     transferProgress := transferProgress st; error := error st;
     alerts := alerts st;
     ephemeralKeyPair := ephemeralKeyPair st; sharedSecret := sharedSecret st;
     aesKey := aesKey st; transferChar := transferChar st;
     ackReceived := ackReceived st;
     handshakeWrites := handshakeWrites st;
     transferWrites := transferWrites st; tasks := ts |}.

Fixpoint update {A : Type} (k : nat) (x : A) (l : list A) : list A :=
  match l, k with
  | [], _ => []
  | _ :: l', O => x :: l'
  | y :: l', S k' => y :: update k' x l'
  end.

(** Run [k] is now suspended at [t]. *)
Definition setTask (k : nat) (t : Task) (st : State) : State :=
  setTasks (update k t (tasks st)) st.

(** [transferChar.current.writeWithoutResponse(value)]. *)
Definition writeWithoutResponse (value : string) (st : State) : State :=
  {| devices := devices st; connectedDevice := connectedDevice st;
     connectionStatus := connectionStatus st; fileInfo := fileInfo st;
     transferProgress := transferProgress st; error := error st;
     alerts := alerts st;
     ephemeralKeyPair := ephemeralKeyPair st; sharedSecret := sharedSecret st;
     aesKey := aesKey st; transferChar := transferChar st;
     ackReceived := ackReceived st;
     handshakeWrites := handshakeWrites st;
     transferWrites := transferWrites st ++ [value]; tasks := tasks st |}.

(** [handshakeChar.current.writeWithResponse(value)]. *)
Definition writeWithResponse (value : string) (st : State) : State :=
  {| devices := devices st; connectedDevice := connectedDevice st;
     connectionStatus := connectionStatus st; fileInfo := fileInfo st;
     transferProgress := transferProgress st; error := error st;
     alerts := alerts st;
     ephemeralKeyPair := ephemeralKeyPair st; sharedSecret := sharedSecret st;
     aesKey := aesKey st; transferChar := transferChar st;
     ackReceived := ackReceived st;
     handshakeWrites := handshakeWrites st ++ [value];
     transferWrites := transferWrites st; tasks := tasks st |}.

Definition setKeys (kp : option KeyPair) (secret : option (list byte))
    (key : option string) (st : State) : State :=
  {| devices := devices st; connectedDevice := connectedDevice st;
     connectionStatus := connectionStatus st; fileInfo := fileInfo st;
     transferProgress := transferProgress st; error := error st;
     alerts := alerts st;
     ephemeralKeyPair := kp; sharedSecret := secret;
     aesKey := key; transferChar := transferChar st;
     ackReceived := ackReceived st;
     handshakeWrites := handshakeWrites st;
     transferWrites := transferWrites st; tasks := tasks st |}.

Definition setConnectedDevice (device : option string) (st : State) : State :=
  {| devices := devices st; connectedDevice := device;
     connectionStatus := connectionStatus st; fileInfo := fileInfo st;
     transferProgress := transferProgress st; error := error st;
     alerts := alerts st;
     ephemeralKeyPair := ephemeralKeyPair st; sharedSecret := sharedSecret st;
     aesKey := aesKey st; transferChar := transferChar st;
     ackReceived := ackReceived st;
     handshakeWrites := handshakeWrites st;
     transferWrites := transferWrites st; tasks := tasks st |}.

Definition setConnectionStatus (status : string) (st : State) : State :=
  {| devices := devices st; connectedDevice := connectedDevice st;
     connectionStatus := status; fileInfo := fileInfo st;
     transferProgress := transferProgress st; error := error st;
     alerts := alerts st;
     ephemeralKeyPair := ephemeralKeyPair st; sharedSecret := sharedSecret st;
     aesKey := aesKey st; transferChar := transferChar st;
     ackReceived := ackReceived st;
     handshakeWrites := handshakeWrites st;
     transferWrites := transferWrites st; tasks := tasks st |}.

Definition setFileInfo (res : option string) (st : State) : State :=
  {| devices := devices st; connectedDevice := connectedDevice st;
     connectionStatus := connectionStatus st; fileInfo := res;
     transferProgress := transferProgress st; error := error st;
     alerts := alerts st;
     ephemeralKeyPair := ephemeralKeyPair st; sharedSecret := sharedSecret st;
     aesKey := aesKey st; transferChar := transferChar st;
     ackReceived := ackReceived st;
     handshakeWrites := handshakeWrites st;
     transferWrites := transferWrites st; tasks := tasks st |}.

(** [handshakeChar.current] and [transferChar.current] are assigned
    together; the field tells whether they hold characteristics. *)
Definition setTransferChar (b : bool) (st : State) : State :=
  {| devices := devices st; connectedDevice := connectedDevice st;
     connectionStatus := connectionStatus st; fileInfo := fileInfo st;
     transferProgress := transferProgress st; error := error st;
     alerts := alerts st;
     ephemeralKeyPair := ephemeralKeyPair st; sharedSecret := sharedSecret st;
     aesKey := aesKey st; transferChar := b;
     ackReceived := ackReceived st;
     handshakeWrites := handshakeWrites st;
     transferWrites := transferWrites st; tasks := tasks st |}.

(** [deriveAESKey]: the assignment to [aesKey.current], or the [catch]. *)
Definition deriveAESKey (engine : Imports.Engine)
    (sharedSecretUint8 : list byte) (st : State) : State :=
  match Imports.aesKeyHex engine sharedSecretUint8 with
  | Resolved aesKeyHex =>
      setKeys (ephemeralKeyPair st) (sharedSecret st) (Some aesKeyHex) st
  | Rejected m => setError (Some ("AES key derivation error: " ++ m)) st
  end.

(** What [performKeyExchange] meets: the key pair of [nacl.box.keyPair()],
    what the write to and the read of the handshake characteristic come to
    (the read gives the [value] of the characteristic), and what
    [manager.cancelDeviceConnection] comes to where it is called. *)
Record Handshake : Type := {
  fresh : KeyPair;
  written : outcome unit;
  peer : outcome (option string);
  cancelled : outcome unit
}.

(** The [catch] of [performKeyExchange]: the state, and the message with
    which the function rejects when the cancellation throws.  [closure] is
    the value [connectedDevice] has in the closure of the function: that of
    the render which made the handler now running, not the device just
    connected. *)
Definition keyExchangeFailed (h : Handshake) (closure : option string)
    (message : string) (st : State) : State * option string :=
  let st := setError (Some ("Key exchange error: " ++ message)) st in
  let st := setConnectionStatus "Disconnected" st in
  match closure with
  | None => (st, None)
  | Some _ =>
      match cancelled h with
      | Rejected m => (st, Some m)
      | Resolved _ => (setConnectedDevice None st, None)
      end
  end.

(** [performKeyExchange]. *)
Definition performKeyExchange (nacl : NaclLib) (engine : Imports.Engine)
    (h : Handshake) (closure : option string) (st : State)
    : State * option string :=
  let st := setKeys (Some (fresh h)) (sharedSecret st) (aesKey st) st in
  let pubKeyStr :=
    Base64.encode (string_of_list_byte (publicKey (fresh h))) in
  let st := writeWithResponse pubKeyStr st in
  match written h with
  | Rejected m => keyExchangeFailed h closure m st
  | Resolved _ =>
      match peer h with
      | Rejected m => keyExchangeFailed h closure m st
      | Resolved peerPubChar =>
          match truthy peerPubChar with
          | None => keyExchangeFailed h closure "Failed to read peer public key" st
          | Some value =>
              match Base64.decode value with
              | Rejected m => keyExchangeFailed h closure m st
              | Resolved peerPubKeyStr =>
                  let peerPubKeyUint8 := Js.toUint8Array peerPubKeyStr in
                  match box_before nacl peerPubKeyUint8
                          (secretKey (fresh h)) with
                  | Rejected m => keyExchangeFailed h closure m st
                  | Resolved secret =>
                      let st :=
                        setKeys (ephemeralKeyPair st) (Some secret)
                                (aesKey st) st in
                      (deriveAESKey engine secret st, None)
                  end
              end
          end
      end
  end.

(** What [connectToDevice] meets besides: what
    [manager.connectToDevice(device.id)] comes to (the identifier of the
    connected device), [discoverAllServicesAndCharacteristics], [services()]
    with the characteristics of each service, and the registration of the
    monitor. *)
Record Connection : Type := {
  connected : outcome string;
  discovered : outcome unit;
  services : outcome (list Discovery.Service);
  monitored : outcome unit;
  handshake : Handshake
}.

(** The [catch] of [connectToDevice]. *)
Definition connectionFailed (message : string) (st : State) : State :=
  setConnectedDevice None
    (setConnectionStatus "Disconnected"
       (setError (Some ("Connection error: " ++ message)) st)).

(** [connectToDevice]. *)
Definition connectToDevice (nacl : NaclLib) (engine : Imports.Engine)
    (c : Connection) (st : State) : State :=
  let closure := connectedDevice st in
  let st := setConnectionStatus "Connecting..." (setError None st) in
  match connected c with
  | Rejected m => connectionFailed m st
  | Resolved device =>
      let st := setConnectionStatus "Discovering services..."
                  (setConnectedDevice (Some device) st) in
      match discovered c with
      | Rejected m => connectionFailed m st
      | Resolved _ =>
          match services c with
          | Rejected m => connectionFailed m st
          | Resolved services =>
              match Discovery.findCharacteristics services with
              | Rejected m => connectionFailed m st
              | Resolved found =>
                  if Discovery.missing found
                  then
                    let st :=
                      setConnectionStatus "Disconnected"
                        (setError
                           (Some "Required BLE characteristics not found on device.")
                           st) in
                    match cancelled (handshake c) with
                    | Rejected m => connectionFailed m st
                    | Resolved _ => setConnectedDevice None st
                    end
                  else
                    let st := setTransferChar true st in
                    match monitored c with
                    | Rejected m => connectionFailed m st
                    | Resolved _ =>
                        let st := setConnectionStatus "Connected" st in
                        match performKeyExchange nacl engine (handshake c)
                                closure st with
                        | (st, Some m) => connectionFailed m st
                        | (st, None) => st
                        end
                    end
              end
          end
      end
  end.

(** What [DocumentPicker.pickSingle] comes to. *)
Inductive Picked : Type :=
| File (uri : string)
| Cancelled
| Failed (message : string).

(** [pickFile]. *)
Definition pickFile (res : Picked) (st : State) : State :=
  let st := setError None st in
  match res with
  | File uri => setTransferProgress (Percent 0) (setFileInfo (Some uri) st)
  | Cancelled => st
  | Failed m => setError (Some ("File pick error: " ++ m)) st
  end.

(** [chunkBase64String]: the [while] loop, [fuel] bounding its iterations. *)
Fixpoint chunkLoop (fuel index : nat) (base64Str : string) : list string :=
  match fuel with
  | O => []
  | S fuel' =>
      if (index <? String.length base64Str)%nat
      then Js.slice index (index + CHUNK_SIZE) base64Str
           :: chunkLoop fuel' (index + CHUNK_SIZE) base64Str
      else []
  end.

Definition chunkBase64String (base64Str : string) : list string :=
  chunkLoop (String.length base64Str) 0 base64Str.

(** [encryptChunk]: [iv] is what [AES.randomKey(12)] resolves to. *)
Definition encryptChunk (aes : AesLib) (key : option string) (iv : string)
    (chunkBase64 : string) : outcome string :=
  match AES_encrypt aes chunkBase64 key iv with
  | Resolved cipher => Resolved (iv ++ cipher)
  | Rejected m => Rejected ("Encryption error: " ++ m)
  end.

(** What [sendFileChunks] draws from outside: the cipher, what fetching a
    URI and reading it as a data URL gives (the base64 text of the file),
    the IV that iteration [i] of run [k] obtains from [AES.randomKey(12)],
    and what the write of that iteration to the transfer characteristic
    comes to. *)
Record Env : Type := {
  aes : AesLib;
  fetchBase64 : string -> outcome string;
  randomKey : nat -> nat -> string;
  writeCompletes : nat -> nat -> outcome unit
}.

(** [readFileAsBase64]. *)
Definition readFileAsBase64 (env : Env) (uri : string) : outcome string :=
  match fetchBase64 env uri with
  | Resolved base64data => Resolved base64data
  | Rejected m => Rejected ("File read error: " ++ m)
  end.

(** [Math.round(((i + 1) / chunks.length) * 100)]. *)
Definition percent (i n : nat) : Progress := percentOf (i + 1) n.

(** The [catch] of [sendFileChunks]. *)
Definition transferFailed (k : nat) (message : string) (st : State) : State :=
  setTask k Returned (setError (Some ("File transfer error: " ++ message)) st).

(** The head of the [for] loop. *)
Definition loopHead (k : nat) (chunks : list string) (i : nat) (st : State)
    : State :=
  if (i <? List.length chunks)%nat
  then setTask k (Encrypting chunks i) st
  else setTask k Returned
         (alert "File transfer completed successfully." st).

(** The [while (!ackReceived.current)] test and what follows it up to the
    next [await]: the value is handed to the characteristic. *)
Definition waitForAck (k : nat) (chunks : list string) (i : nat)
    (encryptedChunkBase64 : string) (st : State) : State :=
  if ackReceived st
  then setTask k (Writing chunks i)
         (writeWithoutResponse encryptedChunkBase64 (setAckReceived false st))
  else setTask k (Sleeping chunks i encryptedChunkBase64) st.

(** [sendFileChunks] up to its first [await]: a new run. *)
Definition sendFileChunks (st : State) : State :=
  match fileInfo st with
  | None => setError (Some "No file selected") st
  | Some uri =>
      if negb (match connectedDevice st with Some _ => true | None => false end)
         || negb (transferChar st)
      then setError (Some "No connected device or transfer characteristic") st
      else match aesKey st with
           | None => setError (Some "Encryption key not established") st
           | Some _ =>
               let st := setTransferProgress (Percent 0) (setError None st) in
               setTasks (tasks st ++ [Reading uri]) st
           end
  end.

(** Run [k] of [sendFileChunks], from the [await] it is suspended at to the
    next one. *)
Definition resume (env : Env) (k : nat) (st : State) : State :=
  match nth_error (tasks st) k with
  | Some (Reading uri) =>
      match readFileAsBase64 env uri with
      | Rejected m => transferFailed k m st
      | Resolved base64Data => loopHead k (chunkBase64String base64Data) 0 st
      end
  | Some (Encrypting chunks i) =>
      match encryptChunk (aes env) (aesKey st) (randomKey env k i)
                         (nth i chunks EmptyString) with
      | Rejected m => transferFailed k m st
      | Resolved encryptedChunk =>
          waitForAck k chunks i (Base64.encode encryptedChunk) st
      end
  | Some (Sleeping chunks i encryptedChunkBase64) =>
      waitForAck k chunks i encryptedChunkBase64 st
  | Some (Writing chunks i) =>
      match writeCompletes env k i with
      | Rejected m => transferFailed k m st
      | Resolved _ =>
          loopHead k chunks (i + 1)
            (setTransferProgress (percent i (List.length chunks)) st)
      end
  | Some Returned | None => st
  end.

(** The test of the monitor callback: [value === 'ACK']. *)
Definition isACK (value : list N) : bool :=
  match Js.narrow value with
  | Some text => String.eqb text "ACK"
  | None => false
  end.

(** The callback given to [transferChar.current.monitor]; an exception of
    [base64.decode] leaves the callback without a change. *)
Definition onNotification (notification : outcome (option string))
    (st : State) : State :=
  match notification with
  | Rejected m => setError (Some ("Notification error: " ++ m)) st
  | Resolved characteristic =>
      match truthy characteristic with
      | None => st
      | Some v =>
          match Base64.decode v with
          | Resolved value =>
              if isACK value then setAckReceived true st else st
          | Rejected _ => st
          end
      end
  end.

(** [disconnectDevice]; a failure of the cancellation is ignored. *)
Definition disconnectDevice (st : State) : State :=
  match connectedDevice st with
  | None => st
  | Some _ =>
      {| devices := [];
         connectedDevice := None;
         connectionStatus := "Disconnected";
         fileInfo := None;
         transferProgress := Percent 0;
         error := None;
         alerts := alerts st;
         ephemeralKeyPair := ephemeralKeyPair st;
         sharedSecret := sharedSecret st;
         aesKey := aesKey st; transferChar := transferChar st;
         ackReceived := ackReceived st;
         handshakeWrites := handshakeWrites st;
         transferWrites := transferWrites st; tasks := tasks st |}
  end.

(** What the event loop can run next during a transfer: the continuation
    of run [k], the monitor callback, or a button handler. *)
Inductive Event : Type :=
| Resume (k : nat)
| Notification (notification : outcome (option string))
| PressSend
| PressDisconnect.

Definition step (env : Env) (st : State) (ev : Event) : State :=
  match ev with
  | Resume k => resume env k st
  | Notification n => onNotification n st
  | PressSend => sendFileChunks st
  | PressDisconnect => disconnectDevice st
  end.

Definition run (env : Env) (st : State) (evs : list Event) : State :=
  fold_left (step env) evs st.

(** Everything the application reacts to from its start: the events above,
    the choice of a device from the list and the choice of a file. *)
Inductive Input : Type :=
| During (ev : Event)
| PressDevice (nacl : NaclLib) (engine : Imports.Engine) (c : Connection)
| PressPick (res : Picked).

Definition handle (env : Env) (st : State) (input : Input) : State :=
  match input with
  | During ev => step env st ev
  | PressDevice nacl engine c => connectToDevice nacl engine c st
  | PressPick res => pickFile res st
  end.

(** The application from the state [st] on. *)
Definition live (env : Env) (st : State) (inputs : list Input) : State :=
  fold_left (handle env) inputs st.

(** The event makes the sender hand a value to the transfer
    characteristic. *)
Definition wrote (env : Env) (st : State) (ev : Event) : bool :=
  (List.length (transferWrites st)
   <? List.length (transferWrites (step env st ev)))%nat.

(** An event that the monitor takes for an acknowledgment. *)
Definition isAck (ev : Event) : bool :=
  match ev with
  | Notification (Resolved characteristic) =>
      match truthy characteristic with
      | Some v =>
          match Base64.decode v with
          | Resolved value => isACK value
          | Rejected _ => false
          end
      | None => false
      end
  | _ => false
  end.

End Sender.

(** ** The receiver *)

Module Receiver.

(** A call of [processReceivedChunk]: the [await] it is suspended at.
    [Decrypting] holds what [decryptChunk] will come to, [Saving] the path
    [RNFS.writeFile] was called with. *)
Inductive Task : Type :=
| Decrypting (result : outcome string)
| Acknowledging
| Saving (filePath : string)
| Returned.

Record State : Type := {
  connectedDevice : option string;
  connectionStatus : string;
  receivedFileName : option string;
  transferProgress : Progress;
  error : option string;
  alerts : list string;
  ephemeralKeyPair : option KeyPair;
  sharedSecret : option (list byte);
  aesKey : option string;
  receivedChunks : list string;
  totalChunks : nat;
  (** values handed to the handshake and to the transfer characteristic
      for writing, oldest first *)
  handshakeWrites : list string;
  transferWrites : list string;
  (** [RNFS.writeFile(path, data, 'base64')] calls, oldest first *)
  files : list (string * string);
  (** the calls of [processReceivedChunk] in progress or over, in starting
      order *)
  tasks : list Task
}.

Definition initial : State := {|
  connectedDevice := None;
  connectionStatus := "Not advertising";
  receivedFileName := None;
  transferProgress := Percent 0;
  error := None;
  alerts := [];
  ephemeralKeyPair := None;
  sharedSecret := None;
  aesKey := None;
  receivedChunks := [];
  totalChunks := 0;
  handshakeWrites := [];
  transferWrites := [];
  files := [];
  tasks := []
|}.

Definition setError (e : option string) (st : State) : State :=
  {| connectedDevice := connectedDevice st;
     connectionStatus := connectionStatus st;
     receivedFileName := receivedFileName st;
     transferProgress := transferProgress st; error := e;
     alerts := alerts st; ephemeralKeyPair := ephemeralKeyPair st;
     sharedSecret := sharedSecret st; aesKey := aesKey st;
     receivedChunks := receivedChunks st; totalChunks := totalChunks st;
     handshakeWrites := handshakeWrites st;
     transferWrites := transferWrites st; files := files st;
     tasks := tasks st |}.

Definition setTransferProgress (p : Progress) (st : State) : State :=
  {| connectedDevice := connectedDevice st;
     connectionStatus := connectionStatus st;
     receivedFileName := receivedFileName st; transferProgress := p;
     error := error st; alerts := alerts st;
     ephemeralKeyPair := ephemeralKeyPair st;
     sharedSecret := sharedSecret st; aesKey := aesKey st;
     receivedChunks := receivedChunks st; totalChunks := totalChunks st;
     handshakeWrites := handshakeWrites st;
     transferWrites := transferWrites st; files := files st;
     tasks := tasks st |}.

Definition alert (text : string) (st : State) : State :=
  {| connectedDevice := connectedDevice st;
     connectionStatus := connectionStatus st;
     receivedFileName := receivedFileName st;
     transferProgress := transferProgress st; error := error st;
     alerts := alerts st ++ [text]; ephemeralKeyPair := ephemeralKeyPair st;
     sharedSecret := sharedSecret st; aesKey := aesKey st;
     receivedChunks := receivedChunks st; totalChunks := totalChunks st;
     handshakeWrites := handshakeWrites st;
     transferWrites := transferWrites st; files := files st;
     tasks := tasks st |}.

Definition setReceivedFileName (name : option string) (st : State) : State :=
  {| connectedDevice := connectedDevice st;
     connectionStatus := connectionStatus st; receivedFileName := name;
     transferProgress := transferProgress st; error := error st;
     alerts := alerts st; ephemeralKeyPair := ephemeralKeyPair st;
     sharedSecret := sharedSecret st; aesKey := aesKey st;
     receivedChunks := receivedChunks st; totalChunks := totalChunks st;
     handshakeWrites := handshakeWrites st;
     transferWrites := transferWrites st; files := files st;
     tasks := tasks st |}.

Definition setConnectedDevice (device : option string) (st : State) : State :=
  {| connectedDevice := device; connectionStatus := connectionStatus st;
     receivedFileName := receivedFileName st;
     transferProgress := transferProgress st; error := error st;
     alerts := alerts st; ephemeralKeyPair := ephemeralKeyPair st;
     sharedSecret := sharedSecret st; aesKey := aesKey st;
     receivedChunks := receivedChunks st; totalChunks := totalChunks st;
     handshakeWrites := handshakeWrites st;
     transferWrites := transferWrites st; files := files st;
     tasks := tasks st |}.

Definition setConnectionStatus (status : string) (st : State) : State :=
  {| connectedDevice := connectedDevice st; connectionStatus := status;
     receivedFileName := receivedFileName st;
     transferProgress := transferProgress st; error := error st;
     alerts := alerts st; ephemeralKeyPair := ephemeralKeyPair st;
     sharedSecret := sharedSecret st; aesKey := aesKey st;
     receivedChunks := receivedChunks st; totalChunks := totalChunks st;
     handshakeWrites := handshakeWrites st;
     transferWrites := transferWrites st; files := files st;
     tasks := tasks st |}.

(** [receivedChunks.current.push(chunk)]. *)
Definition push (chunk : string) (st : State) : State :=
  {| connectedDevice := connectedDevice st;
     connectionStatus := connectionStatus st;
     receivedFileName := receivedFileName st;
     transferProgress := transferProgress st; error := error st;
     alerts := alerts st; ephemeralKeyPair := ephemeralKeyPair st;
     sharedSecret := sharedSecret st; aesKey := aesKey st;
     receivedChunks := receivedChunks st ++ [chunk];
     totalChunks := totalChunks st; handshakeWrites := handshakeWrites st;
     transferWrites := transferWrites st; files := files st;
     tasks := tasks st |}.

(** [transferChar.current.writeWithoutResponse(value)]: the value is handed
    to the characteristic. *)
Definition writeWithoutResponse (value : string) (st : State) : State :=
  {| connectedDevice := connectedDevice st;
     connectionStatus := connectionStatus st;
     receivedFileName := receivedFileName st;
     transferProgress := transferProgress st; error := error st;
     alerts := alerts st; ephemeralKeyPair := ephemeralKeyPair st;
     sharedSecret := sharedSecret st; aesKey := aesKey st;
     receivedChunks := receivedChunks st; totalChunks := totalChunks st;
     handshakeWrites := handshakeWrites st;
     transferWrites := transferWrites st ++ [value]; files := files st;
     tasks := tasks st |}.

(** [handshakeChar.current.writeWithResponse(value)]. *)
Definition writeWithResponse (value : string) (st : State) : State :=
  {| connectedDevice := connectedDevice st;
     connectionStatus := connectionStatus st;
     receivedFileName := receivedFileName st;
     transferProgress := transferProgress st; error := error st;
     alerts := alerts st; ephemeralKeyPair := ephemeralKeyPair st;
     sharedSecret := sharedSecret st; aesKey := aesKey st;
     receivedChunks := receivedChunks st; totalChunks := totalChunks st;
     handshakeWrites := handshakeWrites st ++ [value];
     transferWrites := transferWrites st; files := files st;
     tasks := tasks st |}.

(** [RNFS.writeFile(filePath, fileData, 'base64')] is called. *)
Definition writeFile (filePath fileData : string) (st : State) : State :=
  {| connectedDevice := connectedDevice st;
     connectionStatus := connectionStatus st;
     receivedFileName := receivedFileName st;
     transferProgress := transferProgress st; error := error st;
     alerts := alerts st; ephemeralKeyPair := ephemeralKeyPair st;
     sharedSecret := sharedSecret st; aesKey := aesKey st;
     receivedChunks := receivedChunks st; totalChunks := totalChunks st;
     handshakeWrites := handshakeWrites st;
     transferWrites := transferWrites st;
     files := files st ++ [(filePath, fileData)]; tasks := tasks st |}.

Definition setKeys (kp : option KeyPair) (secret : option (list byte))
    (key : option string) (st : State) : State :=
  {| connectedDevice := connectedDevice st;
     connectionStatus := connectionStatus st;
     receivedFileName := receivedFileName st;
     transferProgress := transferProgress st; error := error st;
     alerts := alerts st; ephemeralKeyPair := kp; sharedSecret := secret;
     aesKey := key; receivedChunks := receivedChunks st;
     totalChunks := totalChunks st; handshakeWrites := handshakeWrites st;
     transferWrites := transferWrites st; files := files st;
     tasks := tasks st |}.

Definition setTasks (ts : list Task) (st : State) : State :=
  {| connectedDevice := connectedDevice st;
     connectionStatus := connectionStatus st;
     receivedFileName := receivedFileName st;
     transferProgress := transferProgress st; error := error st;
     alerts := alerts st; ephemeralKeyPair := ephemeralKeyPair st;
     sharedSecret := sharedSecret st; aesKey := aesKey st;
     receivedChunks := receivedChunks st; totalChunks := totalChunks st;
     handshakeWrites := handshakeWrites st;
     transferWrites := transferWrites st; files := files st; tasks := ts |}.

Definition setTask (k : nat) (t : Task) (st : State) : State :=
  setTasks (Sender.update k t (tasks st)) st.

(** What the disconnect callback and [disconnectDevice] reset. *)
Definition reset (st : State) : State :=
  {| connectedDevice := None; connectionStatus := "Disconnected";
     receivedFileName := None; transferProgress := Percent 0;
     error := error st; alerts := alerts st;
     ephemeralKeyPair := ephemeralKeyPair st;
     sharedSecret := sharedSecret st; aesKey := aesKey st;
     receivedChunks := []; totalChunks := 0;
     handshakeWrites := handshakeWrites st;
     transferWrites := transferWrites st; files := files st;
     tasks := tasks st |}.

(** [deriveAESKey]: the assignment to [aesKey.current], or the [catch]. *)
Definition deriveAESKey (engine : Imports.Engine)
    (sharedSecretUint8 : list byte) (st : State) : State :=
  match Imports.aesKeyHex engine sharedSecretUint8 with
  | Resolved aesKeyHex =>
      setKeys (ephemeralKeyPair st) (sharedSecret st) (Some aesKeyHex) st
  | Rejected m => setError (Some ("AES key derivation error: " ++ m)) st
  end.

(** What [performKeyExchange] meets: the key pair of [nacl.box.keyPair()],
    and what the read of and the write to the handshake characteristic come
    to (the read gives the [value] of the characteristic). *)
Record Handshake : Type := {
  fresh : KeyPair;
  peer : outcome (option string);
  written : outcome unit
}.

(** The [catch] of [performKeyExchange]. *)
Definition keyExchangeFailed (message : string) (st : State) : State :=
  setError (Some ("Key exchange error: " ++ message)) st.

(** [performKeyExchange]. *)
Definition performKeyExchange (nacl : NaclLib) (engine : Imports.Engine)
    (h : Handshake) (st : State) : State :=
  let st := setKeys (Some (fresh h)) (sharedSecret st) (aesKey st) st in
  match peer h with
  | Rejected m => keyExchangeFailed m st
  | Resolved senderPubChar =>
      match truthy senderPubChar with
      | None => keyExchangeFailed "Failed to read sender public key" st
      | Some value =>
          match Base64.decode value with
          | Rejected m => keyExchangeFailed m st
          | Resolved senderPubKeyStr =>
              let senderPubKeyUint8 := Js.toUint8Array senderPubKeyStr in
              let pubKeyStr :=
                Base64.encode (string_of_list_byte (publicKey (fresh h))) in
              let st := writeWithResponse pubKeyStr st in
              match written h with
              | Rejected m => keyExchangeFailed m st
              | Resolved _ =>
                  match box_before nacl senderPubKeyUint8
                          (secretKey (fresh h)) with
                  | Rejected m => keyExchangeFailed m st
                  | Resolved secret =>
                      let st :=
                        setKeys (ephemeralKeyPair st) (Some secret)
                                (aesKey st) st in
                      deriveAESKey engine secret st
                  end
              end
          end
      end
  end.

(** The first 12 and the other code units of a list. *)
Definition ivUnits (encryptedData : list N) : list N := firstn 12 encryptedData.
Definition cipherUnits (encryptedData : list N) : list N :=
  skipn 12 encryptedData.

(** [decryptChunk], as what the promise it returns comes to. *)
Definition decryptChunk (aes : AesLib) (key : option string)
    (encryptedChunkBase64 : string) : outcome string :=
  match Base64.decode encryptedChunkBase64 with
  | Rejected m => Rejected ("Decryption error: " ++ m)
  | Resolved encryptedData =>
      let decrypted :=
        match Js.narrow encryptedData with
        | Some text =>
            let iv := Js.slice 0 12 text in
            let cipher := Js.drop 12 text in
            AES_decrypt aes cipher key iv
        | None =>
            AES_decrypt_wide aes (cipherUnits encryptedData) key
              (ivUnits encryptedData)
        end in
      match decrypted with
      | Resolved decrypted => Resolved decrypted
      | Rejected m => Rejected ("Decryption error: " ++ m)
      end
  end.

(** [decryptChunk] on what the monitor callback hands on, which can hold a
    code unit above 255; [base64.decode] throws on such a text. *)
Definition decryptReceived (aes : AesLib) (key : option string)
    (encryptedChunkBase64 : list N) : outcome string :=
  match Js.narrow encryptedChunkBase64 with
  | Some text => decryptChunk aes key text
  | None => Rejected ("Decryption error: " ++ Base64.invalid)
  end.

(** The cipher, [RNFS.DocumentDirectoryPath], and what the write of the
    acknowledgment and [RNFS.writeFile] come to in call [k] of
    [processReceivedChunk]. *)
Record Env : Type := {
  aes : AesLib;
  DocumentDirectoryPath : string;
  ackCompletes : nat -> outcome unit;
  saveCompletes : nat -> outcome unit
}.

(** The [catch] of [processReceivedChunk]. *)
Definition chunkFailed (k : nat) (message : string) (st : State) : State :=
  setTask k Returned
    (setError (Some ("Chunk processing error: " ++ message)) st).

(** [processReceivedChunk] up to its first [await]: a new call.  The key
    is read when [AES.decrypt] is called. *)
Definition processReceivedChunk (env : Env) (encryptedChunkBase64 : list N)
    (st : State) : State :=
  setTasks
    (tasks st
     ++ [Decrypting (decryptReceived (aes env) (aesKey st)
                       encryptedChunkBase64)])
    st.

(** [assembleAndSaveFile] up to its [await]. *)
Definition assembleAndSaveFile (env : Env) (k : nat) (st : State) : State :=
  let fileData := Js.join (receivedChunks st) in
  let filePath := DocumentDirectoryPath env ++ "/received_file.txt" in
  setTask k (Saving filePath) (writeFile filePath fileData st).

(** Call [k] of [processReceivedChunk], from the [await] it is suspended at
    to the next one. *)
Definition resume (env : Env) (k : nat) (st : State) : State :=
  match nth_error (tasks st) k with
  | Some (Decrypting (Rejected m)) => chunkFailed k m st
  | Some (Decrypting (Resolved decryptedChunk)) =>
      let st := push decryptedChunk st in
      let st := writeWithoutResponse (Base64.encode "ACK") st in
      setTask k Acknowledging st
  | Some Acknowledging =>
      match ackCompletes env k with
      | Rejected m => chunkFailed k m st
      | Resolved _ =>
          let st :=
            setTransferProgress
              (percentOf (List.length (receivedChunks st)) (totalChunks st))
              st in
          if (List.length (receivedChunks st) =? totalChunks st)%nat
          then assembleAndSaveFile env k st
          else setTask k Returned st
      end
  | Some (Saving filePath) =>
      match saveCompletes env k with
      | Resolved _ =>
          setTask k Returned
            (setReceivedFileName (Some "received_file.txt")
               (alert ("File saved to " ++ filePath) st))
      | Rejected m =>
          setTask k Returned
            (setError (Some ("File save error: " ++ m)) st)
      end
  | Some Returned | None => st
  end.

(** The callback given to [transferChar.current.monitor]; an exception of
    [base64.decode] leaves the callback without a change. *)
Definition onNotification (env : Env) (notification : outcome (option string))
    (st : State) : State :=
  match notification with
  | Rejected m => setError (Some ("Notification error: " ++ m)) st
  | Resolved characteristic =>
      match truthy characteristic with
      | None => st
      | Some v =>
          match Base64.decode v with
          | Rejected _ => st
          | Resolved encryptedChunkBase64 =>
              processReceivedChunk env encryptedChunkBase64 st
          end
      end
  end.

(** What the callback given to [manager.onDeviceConnected] meets: its
    [error] argument, the identifier of the device,
    [discoverAllServicesAndCharacteristics], [services()] with the
    characteristics of each service, and the handshake. *)
Record Connection : Type := {
  failure : option string;
  device : string;
  discovered : outcome unit;
  services : outcome (list Discovery.Service);
  handshake : Handshake
}.

(** The callback given to [manager.onDeviceConnected]; an exception outside
    [performKeyExchange] ends it where it is. *)
Definition onDeviceConnected (nacl : NaclLib) (engine : Imports.Engine)
    (c : Connection) (st : State) : State :=
  match failure c with
  | Some m => setError (Some ("Connection error: " ++ m)) st
  | None =>
      let st := setConnectionStatus "Connected"
                  (setConnectedDevice (Some (device c)) st) in
      match discovered c with
      | Rejected _ => st
      | Resolved _ =>
          match services c with
          | Rejected _ => st
          | Resolved services =>
              match Discovery.findCharacteristics services with
              | Rejected _ => st
              | Resolved found =>
                  if Discovery.missing found
                  then setError
                         (Some "Required BLE characteristics not found.") st
                  else performKeyExchange nacl engine (handshake c) st
              end
          end
      end
  end.

(** The callback given to [manager.onDeviceDisconnected]. *)
Definition onDeviceDisconnected (err : option string) (st : State) : State :=
  let st := match err with
            | Some m => setError (Some ("Disconnect error: " ++ m)) st
            | None => st
            end in
  reset st.

(** [disconnectDevice]; a failure of the cancellation is ignored. *)
Definition disconnectDevice (st : State) : State :=
  match connectedDevice st with
  | None => st
  | Some _ => reset st
  end.

(** What the event loop can run next: the continuation of call [k] of
    [processReceivedChunk], a callback, or the button handler. *)
Inductive Event : Type :=
| Resume (k : nat)
| Notification (notification : outcome (option string))
| Connected (nacl : NaclLib) (engine : Imports.Engine) (c : Connection)
| Disconnected (err : option string)
| PressDisconnect.

Definition step (env : Env) (st : State) (ev : Event) : State :=
  match ev with
  | Resume k => resume env k st
  | Notification n => onNotification env n st
  | Connected nacl engine c => onDeviceConnected nacl engine c st
  | Disconnected err => onDeviceDisconnected err st
  | PressDisconnect => disconnectDevice st
  end.

Definition run (env : Env) (st : State) (evs : list Event) : State :=
  fold_left (step env) evs st.

End Receiver.

(** ** The two applications over the transfer characteristic

    The characteristic carries the values the sender hands to it to the
    receiver's monitor and the values the receiver hands to it to the
    sender's monitor, each in the order written; a value can be lost, none
    is repeated or made up.  [framesTaken] and [acksTaken] count the values
    that have left the characteristic in either direction, delivered or
    lost. *)

Module Session.

Record State : Type := {
  sender : Sender.State;
  receiver : Receiver.State;
  framesTaken : nat;
  acksTaken : nat
}.

Record Env : Type := {
  senderEnv : Sender.Env;
  receiverEnv : Receiver.Env
}.

Definition initial : State := {|
  sender := Sender.initial;
  receiver := Receiver.initial;
  framesTaken := 0;
  acksTaken := 0
|}.

Inductive Event : Type :=
| SenderResumes (k : nat)
| SenderPressesSend
| SenderPressesDisconnect
| SenderPressesDevice (nacl : NaclLib) (engine : Imports.Engine)
    (c : Sender.Connection)
| SenderPicks (res : Sender.Picked)
| FrameArrives
| FrameLost
| AckArrives
| AckLost
| ReceiverResumes (k : nat)
| ReceiverConnected (nacl : NaclLib) (engine : Imports.Engine)
    (c : Receiver.Connection)
| ReceiverDisconnected (err : option string)
| ReceiverPressesDisconnect.

Definition atSender (env : Env) (input : Sender.Input) (st : State) : State :=
  {| sender := Sender.handle (senderEnv env) (sender st) input;
     receiver := receiver st;
     framesTaken := framesTaken st;
     acksTaken := acksTaken st |}.

Definition atReceiver (env : Env) (ev : Receiver.Event) (st : State) : State :=
  {| sender := sender st;
     receiver := Receiver.step (receiverEnv env) (receiver st) ev;
     framesTaken := framesTaken st;
     acksTaken := acksTaken st |}.

Definition takeFrame (st : State) : State :=
  {| sender := sender st; receiver := receiver st;
     framesTaken := S (framesTaken st); acksTaken := acksTaken st |}.

Definition takeAck (st : State) : State :=
  {| sender := sender st; receiver := receiver st;
     framesTaken := framesTaken st; acksTaken := S (acksTaken st) |}.

Definition step (env : Env) (st : State) (ev : Event) : State :=
  match ev with
  | SenderResumes k => atSender env (Sender.During (Sender.Resume k)) st
  | SenderPressesSend => atSender env (Sender.During Sender.PressSend) st
  | SenderPressesDisconnect =>
      atSender env (Sender.During Sender.PressDisconnect) st
  | SenderPressesDevice nacl engine c =>
      atSender env (Sender.PressDevice nacl engine c) st
  | SenderPicks res => atSender env (Sender.PressPick res) st
  | FrameArrives =>
      match nth_error (Sender.transferWrites (sender st)) (framesTaken st) with
      | Some value =>
          takeFrame
            (atReceiver env (Receiver.Notification (Resolved (Some value))) st)
      | None => st
      end
  | FrameLost =>
      match nth_error (Sender.transferWrites (sender st)) (framesTaken st) with
      | Some _ => takeFrame st
      | None => st
      end
  | AckArrives =>
      match nth_error (Receiver.transferWrites (receiver st)) (acksTaken st) with
      | Some value =>
          takeAck
            (atSender env
               (Sender.During (Sender.Notification (Resolved (Some value))))
               st)
      | None => st
      end
  | AckLost =>
      match nth_error (Receiver.transferWrites (receiver st)) (acksTaken st) with
      | Some _ => takeAck st
      | None => st
      end
  | ReceiverResumes k => atReceiver env (Receiver.Resume k) st
  | ReceiverConnected nacl engine c =>
      atReceiver env (Receiver.Connected nacl engine c) st
  | ReceiverDisconnected err => atReceiver env (Receiver.Disconnected err) st
  | ReceiverPressesDisconnect => atReceiver env Receiver.PressDisconnect st
  end.

Definition run (env : Env) (st : State) (evs : list Event) : State :=
  fold_left (step env) evs st.

(** The calls of [processReceivedChunk] that have not yet come to their
    acknowledgment. *)
Fixpoint pending (ts : list Receiver.Task) : nat :=
  match ts with
  | [] => 0
  | Receiver.Decrypting _ :: ts' => S (pending ts')
  | _ :: ts' => pending ts'
  end.

(** Nothing written yet on either side, nothing taken, and no call of
    [processReceivedChunk] before its acknowledgment. *)
Definition fresh (st : State) : Prop :=
  Sender.transferWrites (sender st) = []
  /\ Receiver.transferWrites (receiver st) = []
  /\ framesTaken st = 0 /\ acksTaken st = 0
  /\ pending (Receiver.tasks (receiver st)) = 0.

(** The acknowledgments taken are covered by those written, these and the
    calls still to acknowledge by the frames taken, these by the frames
    written; and the frames written are covered by the acknowledgments
    taken, but for one frame while the flag is cleared. *)
Definition inStep (st : State) : Prop :=
  (if Sender.ackReceived (sender st) then 1 else 0)
  + List.length (Sender.transferWrites (sender st)) <= 1 + acksTaken st
  /\ acksTaken st <= List.length (Receiver.transferWrites (receiver st))
  /\ List.length (Receiver.transferWrites (receiver st))
     + pending (Receiver.tasks (receiver st)) <= framesTaken st
  /\ framesTaken st <= List.length (Sender.transferWrites (sender st)).

End Session.

(** ** The protocol description, for comparison *)

Module Spec.

(** [n] as 4 bytes, big-endian. *)
Definition be32 (n : N) : string :=
  String (Js.fromCharCode (N.shiftr n 24 mod 256))
    (String (Js.fromCharCode (N.shiftr n 16 mod 256))
       (String (Js.fromCharCode (N.shiftr n 8 mod 256))
          (String (Js.fromCharCode (n mod 256)) EmptyString))).


Record Frame : Type := {
  sequenceNumber : N;
  isLast : bool;
  nonce : string;
  ciphertext : string;
  authTag : string
}.

(** The wire frame layout of the description:
    [[sequenceNumber: 4 bytes big-endian][flags: 1 byte, bit0=isLast]
     [nonce: 12 bytes][ciphertext: variable][authTag: 16 bytes]]. *)
Definition serialize (f : Frame) : string :=
  be32 (sequenceNumber f)
  ++ String (Js.fromCharCode (if isLast f then 1 else 0)) EmptyString
  ++ nonce f ++ ciphertext f ++ authTag f.


(** The text under the transport encoding, when it is one. *)
Definition transported (payload : string) : option string :=
  match Base64.decode payload with
  | Resolved bytes => Js.narrow bytes
  | Rejected _ => None
  end.



(** The acknowledgment message of the description:
    [[ackSequenceNumber: 4 bytes big-endian]], as it is or under the
    transport encoding. *)
Definition isAcknowledgment (i : N) (payload : string) : bool :=
  String.eqb payload (be32 i)
  || match transported payload with
     | Some bytes => String.eqb bytes (be32 i)
     | None => false
     end.


End Spec.

(** ** Ciphers to run the applications with *)

(** A package that meets [lawful] and [keyed]: the output is the text
    behind the key and the IV, and decrypting under another key or IV, or
    without a key, is rejected. *)

Module Sealed.

Definition encrypt (text : string) (key : option string) (iv : string)
    : outcome string :=
  match key with
  | Some k => Resolved (k ++ iv ++ text)
  | None => Rejected "key is null"
  end.

Definition decrypt (cipher : string) (key : option string) (iv : string)
    : outcome string :=
  match key with
  | Some k =>
      if String.prefix (k ++ iv) cipher
      then Resolved (Js.drop (String.length (k ++ iv)) cipher)
      else Rejected "authentication failed"
  | None => Rejected "key is null"
  end.

Definition lib : AesLib :=
  {| AES_encrypt := encrypt; AES_decrypt := decrypt;
     AES_decrypt_wide := fun _ key _ =>
       match key with
       | Some _ => Rejected "authentication failed"
       | None => Rejected "key is null"
       end |}.

End Sealed.

(** A package that meets [lawful] and never rejects: the output is the
    text, and decrypting gives back whatever it is given, with or without
    a key. *)

Module Plain.

Definition lib : AesLib :=
  {| AES_encrypt := fun text _ _ => Resolved text;
     AES_decrypt := fun cipher _ _ => Resolved cipher;
     AES_decrypt_wide := fun _ _ _ => Resolved EmptyString |}.

End Plain.

(** ** Sample sessions *)

Module Sample.

(** A stand-in for the curve, to have keys to run with: the public key is
    the secret key and the agreement is their exclusive or, symmetric as
    the real one. *)
Definition xorBytes (a b : list byte) : list byte :=
  map (fun p => match Byte.of_N (N.lxor (Byte.to_N (fst p)) (Byte.to_N (snd p))) with
                | Some x => x
                | None => x00
                end)
      (combine a b).

Definition nacl : NaclLib :=
  {| box_before := fun theirs mine =>
       if ((List.length theirs =? 32) && (List.length mine =? 32))%nat
       then Resolved (xorBytes theirs mine)
       else Rejected "bad public key size" |}.

Definition senderPair : KeyPair :=
  {| publicKey := repeat x17 32; secretKey := repeat x17 32 |}.

Definition receiverPair : KeyPair :=
  {| publicKey := repeat x2a 32; secretKey := repeat x2a 32 |}.

(** The secret the two pairs agree on. *)
Definition secret : list byte := repeat x3d 32.

Definition handshakeValue (kp : KeyPair) : string :=
  Base64.encode (string_of_list_byte (publicKey kp)).

(** An engine without a global [Buffer]. *)
Definition engine : Imports.Engine :=
  {| Imports.Buffer_hex := None;
     Imports.notDefined := "Property 'Buffer' doesn't exist";
     Imports.notAFunction := "undefined is not a function" |}.

(** What the receiver's device offers. *)
Definition services : list Discovery.Service :=
  [{| Discovery.serviceUuid := Discovery.SERVICE_UUID;
      Discovery.characteristics :=
        Resolved [{| Discovery.handle := 1;
                     Discovery.uuid := Discovery.HANDSHAKE_CHAR_UUID |};
                  {| Discovery.handle := 2;
                     Discovery.uuid := Discovery.TRANSFER_CHAR_UUID |}] |}].

(** The sender connects to the receiver, every call succeeds, and the read
    of the handshake characteristic gives the receiver's public key. *)
Definition toReceiver : Sender.Connection :=
  {| Sender.connected := Resolved "receiver";
     Sender.discovered := Resolved tt;
     Sender.services := Resolved services;
     Sender.monitored := Resolved tt;
     Sender.handshake :=
       {| Sender.fresh := senderPair;
          Sender.written := Resolved tt;
          Sender.peer := Resolved (Some (handshakeValue receiverPair));
          Sender.cancelled := Resolved tt |} |}.

(** The same at the receiver. *)
Definition fromSender : Receiver.Connection :=
  {| Receiver.failure := None;
     Receiver.device := "sender";
     Receiver.discovered := Resolved tt;
     Receiver.services := Resolved services;
     Receiver.handshake :=
       {| Receiver.fresh := receiverPair;
          Receiver.peer := Resolved (Some (handshakeValue senderPair));
          Receiver.written := Resolved tt |} |}.

(** A file of 138 bytes, 184 characters of base64: two chunks. *)
Definition notes : string := Base64.encode (Js.join (repeat "ble" 46)).

Definition fetch (uri : string) : outcome string :=
  if String.eqb uri "file:///notes.txt" then Resolved notes
  else if String.eqb uri "file:///abc.txt" then Resolved "QUJD"
  else Rejected "no such file".

Definition hexDigit (n : N) : ascii :=
  match String.get (N.to_nat n) "0123456789abcdef" with
  | Some c => c
  | None => "0"%char
  end.

(** The IV of iteration [i] of run [k]: 12 bytes as 24 hex digits. *)
Definition iv (k i : nat) : string :=
  let b := (N.of_nat (16 * k + i) mod 256)%N in
  Js.join (repeat (String (hexDigit (b / 16)%N)
                     (String (hexDigit (b mod 16)%N) EmptyString)) 12).

Definition senderEnv : Sender.Env :=
  {| Sender.aes := Sealed.lib;
     Sender.fetchBase64 := fetch;
     Sender.randomKey := iv;
     Sender.writeCompletes := fun _ _ => Resolved tt |}.

Definition receiverEnv : Receiver.Env :=
  {| Receiver.aes := Sealed.lib;
     Receiver.DocumentDirectoryPath := "/data/files";
     Receiver.ackCompletes := fun _ => Resolved tt;
     Receiver.saveCompletes := fun _ => Resolved tt |}.

(** The sender after it has connected and the file has been picked, and
    the receiver after the sender has connected. *)
Definition senderConnected (uri : string) : Sender.State :=
  Sender.live senderEnv Sender.initial
    [Sender.PressDevice nacl engine toReceiver;
     Sender.PressPick (Sender.File uri)].

Definition receiverConnected : Receiver.State :=
  Receiver.run receiverEnv Receiver.initial
    [Receiver.Connected nacl engine fromSender].

(** A key of 64 hex digits. *)
Definition key : string :=
  "ae80b58e039b6c442650e6c0f1340b4bb3d5ec55109bd2d27cbedc44edf471a8".

(** The two states with that key put into the [aesKey] cell.  No handshake
    of the applications leads to them: they are the states the code after
    the guard of [sendFileChunks], and [decryptChunk], are written for. *)
Definition senderReady (uri : string) : Sender.State :=
  Sender.setKeys (Some senderPair) (Some secret) (Some key)
    (senderConnected uri).

Definition receiverReady : Receiver.State :=
  Receiver.setKeys (Some receiverPair) (Some secret) (Some key)
    receiverConnected.

(** Both applications with a cipher that does not authenticate. *)
Definition plainEnv : Session.Env :=
  {| Session.senderEnv :=
       {| Sender.aes := Plain.lib;
          Sender.fetchBase64 := fetch;
          Sender.randomKey := iv;
          Sender.writeCompletes := fun _ _ => Resolved tt |};
     Session.receiverEnv :=
       {| Receiver.aes := Plain.lib;
          Receiver.DocumentDirectoryPath := "/data/files";
          Receiver.ackCompletes := fun _ => Resolved tt;
          Receiver.saveCompletes := fun _ => Resolved tt |} |}.

Definition sealedEnv : Session.Env :=
  {| Session.senderEnv := senderEnv; Session.receiverEnv := receiverEnv |}.

(** Both sides with the key put in, the sender with the two-chunk file. *)
Definition session : Session.State :=
  {| Session.sender := senderReady "file:///notes.txt";
     Session.receiver := receiverReady;
     Session.framesTaken := 0;
     Session.acksTaken := 0 |}.

(** The start of both applications as the code has it: each connects to
    the other, the sender picks the two-chunk file and Send is pressed. *)
Definition start : list Session.Event :=
  [Session.ReceiverConnected nacl engine fromSender;
   Session.SenderPressesDevice nacl engine toReceiver;
   Session.SenderPicks (Sender.File "file:///notes.txt");
   Session.SenderPressesSend].

(** The two-chunk file sent from [session], every frame and every
    acknowledgment delivered. *)
Definition transfer : list Session.Event :=
  [Session.SenderPressesSend; Session.SenderResumes 0;
   Session.SenderResumes 0; Session.SenderResumes 0;
   Session.FrameArrives; Session.ReceiverResumes 0; Session.AckArrives;
   Session.SenderResumes 0; Session.SenderResumes 0;
   Session.FrameArrives; Session.ReceiverResumes 1; Session.AckArrives].

End Sample.

(** ** A transfer in which every frame is acknowledged *)

Module Schedule.

(** The notification that carries the receiver's acknowledgment. *)
Definition ack : Sender.Event :=
  Sender.Notification (Resolved (Some (Base64.encode "ACK"))).

(** Run 0 is resumed after the encryption of a chunk and again after the
    write of its frame. *)
Definition sends : list Sender.Event := [Sender.Resume 0; Sender.Resume 0].

(** [n] chunks, each sent and then acknowledged. *)
Fixpoint turns (n : nat) : list Sender.Event :=
  match n with
  | O => []
  | S n' => sends ++ ack :: turns n'
  end.




(** A state in which [sendFileChunks] returns at one of its guards: no
    file picked, no device, no transfer characteristic or no key. *)
Definition blocked (st : Sender.State) : Prop :=
  Sender.fileInfo st = None
  \/ Sender.connectedDevice st = None
  \/ Sender.transferChar st = false
  \/ Sender.aesKey st = None.

End Schedule.


(** ** The handshake and the buffer, for the properties below *)

Module Intake.

(** The public key of the peer cannot be had: the read fails, gives no
    value, or gives text with a character that is not base64. *)
Definition unreadable (peer : outcome (option string)) : bool :=
  match peer with
  | Rejected _ => true
  | Resolved value =>
      match truthy value with
      | None => true
      | Some v =>
          match Base64.decode v with
          | Rejected _ => true
          | Resolved _ => false
          end
      end
  end.

(** A characteristic value that brings [chunk] behind an IV of 12
    characters. *)
Definition delivery (chunk : string) : outcome (option string) :=
  Resolved
    (Some (Base64.encode (Base64.encode ("0123456789ab" ++ chunk)))).

(** A receiver, with a cipher package that does not ask for a key, after
    the two chunks of the sample file have been notified: call 0 of
    [processReceivedChunk] has returned, call 1 waits for the write of its
    acknowledgment. *)
Definition buffered : Receiver.State :=
  Receiver.run (Session.receiverEnv Sample.plainEnv) Receiver.initial
    [Receiver.Connected Sample.nacl Sample.engine Sample.fromSender;
     Receiver.Notification
       (delivery (nth 0 (Sender.chunkBase64String Sample.notes) ""));
     Receiver.Resume 0;
     Receiver.Resume 0;
     Receiver.Notification
       (delivery (nth 1 (Sender.chunkBase64String Sample.notes) ""));
     Receiver.Resume 1].

End Intake.

(** ** What the applications keep from their start *)

Module Start.

(** What a sender that has never had a key keeps. *)
Definition keyless (st : Sender.State) : Prop :=
  Sender.aesKey st = None /\ Sender.tasks st = []
  /\ Sender.transferWrites st = [] /\ Sender.ackReceived st = true.

(** What the handshake and the connection leave alone. *)
Definition sameTransfer (st st' : Sender.State) : Prop :=
  Sender.aesKey st' = Sender.aesKey st
  /\ Sender.tasks st' = Sender.tasks st
  /\ Sender.transferWrites st' = Sender.transferWrites st
  /\ Sender.ackReceived st' = Sender.ackReceived st
  /\ Sender.fileInfo st' = Sender.fileInfo st
  /\ Sender.alerts st' = Sender.alerts st.

(** What a receiver that has never had a key keeps, whatever the cipher
    package does without a key: the counter of expected chunks is 0, and a
    file it has written is empty. *)
Definition unkeyed (st : Receiver.State) : Prop :=
  Receiver.aesKey st = None /\ Receiver.totalChunks st = 0
  /\ Forall (fun file => snd file = EmptyString) (Receiver.files st).

(** A call of [processReceivedChunk] that has failed or will fail at its
    decryption. *)
Definition failing (t : Receiver.Task) : Prop :=
  match t with
  | Receiver.Decrypting (Rejected _) | Receiver.Returned => True
  | _ => False
  end.

(** What such a receiver keeps when the cipher package decrypts nothing
    without a key. *)
Definition idle (st : Receiver.State) : Prop :=
  Receiver.aesKey st = None /\ Receiver.receivedChunks st = []
  /\ Receiver.transferWrites st = [] /\ Receiver.files st = []
  /\ Receiver.receivedFileName st = None
  /\ Forall failing (Receiver.tasks st).

(** Both applications when nothing has passed between them. *)
Definition apart (st : Session.State) : Prop :=
  keyless (Session.sender st)
  /\ Session.framesTaken st = 0 /\ Session.acksTaken st = 0
  /\ Receiver.aesKey (Session.receiver st) = None
  /\ Receiver.tasks (Session.receiver st) = []
  /\ Receiver.receivedChunks (Session.receiver st) = []
  /\ Receiver.transferWrites (Session.receiver st) = []
  /\ Receiver.files (Session.receiver st) = [].



End Start.

(** ** Checking a property of characters on all of them *)

Definition all_ascii : list ascii := map ascii_of_nat (seq 0 256).

Definition forall_ascii (P : ascii -> bool) : bool := forallb P all_ascii.

Definition forall_ascii2 (P : ascii -> ascii -> bool) : bool :=
  forall_ascii (fun a => forall_ascii (P a)).

(** The checks behind the round trip of the transport encoding. *)

Definition indexIs (e : N) : bool :=
  match Base64.indexOf (Base64.charAt e) with
  | Some e' => (e' =? e)%N && (e <? 64)%N
  | None => false
  end.

Definition groupCheck (a b : ascii) : bool :=
  let x := Js.charCode a in
  let y := Js.charCode b in
  indexIs (Base64.enc1 x) && indexIs (Base64.enc2 x y) && indexIs (Base64.enc3 x y)
  && indexIs (Base64.enc4 x) && indexIs (Base64.enc2 x 0) && indexIs (Base64.enc3 x 0)
  && (Base64.chr1 (Base64.enc1 x) (Base64.enc2 x y) =? x)%N
  && (Base64.chr1 (Base64.enc1 x) (Base64.enc2 x 0) =? x)%N
  && (N.land (Base64.enc2 x y) 15 =? N.shiftr y 4)%N
  && (N.lor (N.shiftl (N.shiftr x 4) 4) (N.shiftr (Base64.enc3 x y) 2) =? x)%N
  && (N.lor (N.shiftl (N.shiftr x 4) 4) (N.shiftr (Base64.enc3 x 0) 2) =? x)%N
  && (Base64.chr3 (Base64.enc3 x y) (Base64.enc4 y) =? y)%N.

(** An index that [encode] computes is found again by [decode], and is not
    the padding. *)
Definition found (e : N) : Prop :=
  Base64.indexOf (Base64.charAt e) = Some e
  /\ Base64.index (Base64.charAt e) = e /\ (e =? 64)%N = false.

(** * Properties *)

(** ** Strings *)

Module JsFacts.
Import Js.

Lemma length_append (s t : string) :
  String.length (s ++ t) = String.length s + String.length t.
Proof. induction s as [|c s IH]; simpl; [reflexivity | now rewrite IH]. Qed.

Lemma append_nil_r (s : string) : s ++ "" = s.
Proof. induction s as [|c s IH]; simpl; [reflexivity | now rewrite IH]. Qed.

Lemma append_assoc (s t u : string) : (s ++ t) ++ u = s ++ (t ++ u).
Proof. induction s as [|c s IH]; simpl; [reflexivity | now rewrite IH]. Qed.

Lemma length_take (n : nat) (s : string) :
  String.length (take n s) = Nat.min n (String.length s).
Proof.
  revert s; induction n as [|n IH]; intros [|c s]; simpl; try reflexivity.
  now rewrite IH.
Qed.

Lemma length_drop (n : nat) (s : string) :
  String.length (drop n s) = String.length s - n.
Proof.
  revert s; induction n as [|n IH]; intros [|c s]; simpl; try reflexivity.
  apply IH.
Qed.

Lemma take_drop (n : nat) (s : string) : take n s ++ drop n s = s.
Proof.
  revert s; induction n as [|n IH]; intros [|c s]; simpl; try reflexivity.
  now rewrite IH.
Qed.

Lemma take_append (s t : string) : take (String.length s) (s ++ t) = s.
Proof. induction s as [|c s IH]; simpl; [now destruct t | now rewrite IH]. Qed.

Lemma drop_append (s t : string) : drop (String.length s) (s ++ t) = t.
Proof. induction s as [|c s IH]; simpl; [reflexivity | exact IH]. Qed.

Lemma length_slice (a b : nat) (s : string) :
  String.length (slice a b s) <= b - a.
Proof. unfold slice. rewrite length_take. apply Nat.le_min_l. Qed.

End JsFacts.

(** ** Exhaustive checks *)

Lemma all_ascii_complete (a : ascii) : In a all_ascii.
Proof.
  assert (H : existsb (Ascii.eqb a) all_ascii = true)
    by (destruct a as [[] [] [] [] [] [] [] []]; vm_compute; reflexivity).
  apply existsb_exists in H. destruct H as [x [Hin Heq]].
  apply Ascii.eqb_eq in Heq. now subst.
Qed.

Lemma forall_ascii_spec (P : ascii -> bool) :
  forall_ascii P = true -> forall a, P a = true.
Proof.
  unfold forall_ascii. intros H a.
  rewrite forallb_forall in H. apply H, all_ascii_complete.
Qed.

Lemma forall_ascii2_spec (P : ascii -> ascii -> bool) :
  forall_ascii2 P = true -> forall a b, P a b = true.
Proof.
  unfold forall_ascii2. intros H a b.
  apply (forall_ascii_spec (P a)).
  apply (forall_ascii_spec (fun a => forall_ascii (P a)) H).
Qed.

(** ** Transport encoding *)

Module Base64Facts.
Import Base64.

Lemma indexIs_spec e :
  indexIs e = true ->
  indexOf (charAt e) = Some e /\ index (charAt e) = e /\ (e =? 64)%N = false.
Proof.
  unfold indexIs, index.
  destruct (indexOf (charAt e)) as [e'|]; [|discriminate].
  intros H. apply andb_prop in H. destruct H as [H1 H2].
  apply N.eqb_eq in H1. apply N.ltb_lt in H2. subst e'.
  repeat split. apply N.eqb_neq. lia.
Qed.

Lemma groupCheck_all a b : groupCheck a b = true.
Proof.
  revert a b. apply forall_ascii2_spec. vm_compute. reflexivity.
Qed.

Lemma group_facts (a b : ascii) :
  let x := Js.charCode a in
  let y := Js.charCode b in
  found (enc1 x) /\ found (enc2 x y) /\ found (enc3 x y) /\ found (enc4 x)
  /\ found (enc2 x 0) /\ found (enc3 x 0)
  /\ chr1 (enc1 x) (enc2 x y) = x
  /\ chr1 (enc1 x) (enc2 x 0) = x
  /\ N.land (enc2 x y) 15 = N.shiftr y 4
  /\ N.lor (N.shiftl (N.shiftr x 4) 4) (N.shiftr (enc3 x y) 2) = x
  /\ N.lor (N.shiftl (N.shiftr x 4) 4) (N.shiftr (enc3 x 0) 2) = x
  /\ chr3 (enc3 x y) (enc4 y) = y.
Proof.
  pose proof (groupCheck_all a b) as H. unfold groupCheck in H.
  cbv zeta in *.
  repeat (apply andb_prop in H; destruct H as [H ?]).
  repeat match goal with
         | H : indexIs _ = true |- _ => apply indexIs_spec in H
         | H : (_ =? _)%N = true |- _ => apply N.eqb_eq in H
         end.
  unfold found. repeat split; try tauto; assumption.
Qed.

Lemma chr2_enc (a b c : ascii) :
  chr2 (enc2 (Js.charCode a) (Js.charCode b))
       (enc3 (Js.charCode b) (Js.charCode c)) = Js.charCode b.
Proof.
  destruct (group_facts a b) as (_ & _ & _ & _ & _ & _ & _ & _ & Hl & _).
  destruct (group_facts b c) as (_ & _ & _ & _ & _ & _ & _ & _ & _ & Hc & _).
  unfold chr2. rewrite Hl. exact Hc.
Qed.

Lemma chr2_enc_pad (a b : ascii) :
  chr2 (enc2 (Js.charCode a) (Js.charCode b)) (enc3 (Js.charCode b) 0)
  = Js.charCode b.
Proof.
  destruct (group_facts a b) as (_ & _ & _ & _ & _ & _ & _ & _ & Hl & _).
  destruct (group_facts b b) as (_ & _ & _ & _ & _ & _ & _ & _ & _ & _ & Hc & _).
  unfold chr2. rewrite Hl. exact Hc.
Qed.

Lemma fromCharCode_charCode (a : ascii) : Js.fromCharCode (Js.charCode a) = a.
Proof. apply ascii_N_embedding. Qed.

Lemma charCode_lt (a : ascii) : (Js.charCode a <? 256)%N = true.
Proof. apply N.ltb_lt, N_ascii_bounded. Qed.

Lemma narrow_units (s : string) : Js.narrow (Js.units s) = Some s.
Proof.
  induction s as [| a s IH]; [reflexivity |].
  cbn [Js.units Js.narrow]. rewrite charCode_lt, IH. cbn.
  now rewrite fromCharCode_charCode.
Qed.

Lemma index_pad : indexOf (charAt 64) = Some 64%N /\ index (charAt 64) = 64%N.
Proof. split; reflexivity. Qed.

(** Induction on strings, three characters at a time. *)
Lemma string_by_three (P : string -> Prop) :
  P "" ->
  (forall a, P (String a "")) ->
  (forall a b, P (String a (String b ""))) ->
  (forall a b c s, P s -> P (String a (String b (String c s)))) ->
  forall s, P s.
Proof.
  intros H0 H1 H2 H3.
  fix IH 1. intros [|a [|b [|c s]]]; [exact H0 | apply H1 | apply H2 |].
  apply H3, IH.
Qed.

(** What [encode] makes of a text, [decode] takes without an exception and
    turns back into the code units of the text. *)
Lemma decode_encodeLoop (s : string) :
  hasInvalid (encodeLoop s) = false
  /\ decodeLoop (encodeLoop s) = Js.units s.
Proof.
  induction s as [| a | a b | a b c s IH] using string_by_three.
  - split; reflexivity.
  - cbn [encodeLoop]. unfold quad. cbn [hasInvalid decodeLoop].
    destruct (group_facts a a) as
      ((I1 & J1 & N1) & _ & _ & _ & (I2 & J2 & N2) & _ & _ & C1 & _).
    destruct index_pad as [I64 J64].
    rewrite I1, I2, I64, J1, J2, J64. unfold group. cbn [N.eqb Pos.eqb app].
    now rewrite C1.
  - cbn [encodeLoop]. unfold quad. cbn [hasInvalid decodeLoop].
    destruct (group_facts a b) as
      ((I1 & J1 & N1) & (I2 & J2 & N2) & _ & _ & _ & _ & C1 & _).
    destruct (group_facts b b) as
      (_ & _ & _ & _ & _ & (I3 & J3 & N3) & _).
    destruct index_pad as [I64 J64].
    rewrite I1, I2, I3, I64, J1, J2, J3, J64. unfold group.
    rewrite N3. cbn [N.eqb Pos.eqb app].
    now rewrite C1, chr2_enc_pad.
  - cbn [encodeLoop]. unfold quad. cbn [hasInvalid decodeLoop].
    destruct (group_facts a b) as
      ((I1 & J1 & N1) & (I2 & J2 & N2) & _ & _ & _ & _ & C1 & _).
    destruct (group_facts b c) as
      (_ & _ & (I3 & J3 & N3) & _ & _ & _ & _ & _ & _ & _ & _ & C3).
    destruct (group_facts c c) as (_ & _ & _ & (I4 & J4 & N4) & _).
    destruct IH as [V IH].
    rewrite I1, I2, I3, I4, J1, J2, J3, J4. unfold group.
    rewrite N3, N4, IH. cbn [app Js.units].
    split; [exact V |]. now rewrite C1, chr2_enc, C3.
Qed.

(** The round trip of the transport encoding, for a text that is not
    empty. *)
Theorem decode_encode (a : ascii) (s : string) :
  decode (encode (String a s)) = Resolved (Js.units (String a s)).
Proof.
  destruct (decode_encodeLoop (String a s)) as [V D].
  unfold decode, encode. rewrite V, D.
  destruct s as [| b [| c s]]; reflexivity.
Qed.

(** On the empty text it fails. *)
Lemma decode_encode_empty : decode (encode "") = Resolved [0%N].
Proof. reflexivity. Qed.

Lemma encode_cons (a : ascii) (s : string) :
  exists b t, encode (String a s) = String b t.
Proof.
  destruct s as [| b [| c s]]; cbn [encode encodeLoop]; unfold quad; eauto.
Qed.

Lemma encode_truthy (a : ascii) (s : string) :
  truthy (Some (encode (String a s))) = Some (encode (String a s)).
Proof. destruct (encode_cons a s) as (b & t & ->). reflexivity. Qed.

(** What [encode] returns is never the empty text. *)
Lemma encode_nonempty (s : string) : truthy (Some (encode s)) = Some (encode s).
Proof. destruct s as [| a s]; [reflexivity | apply encode_truthy]. Qed.

End Base64Facts.

Example base64_encode_ACK : Base64.encode "ACK" = "QUNL".
Proof. reflexivity. Qed.

Example base64_decode_ACK : Base64.decode "QUNL" = Resolved (Js.units "ACK").
Proof. reflexivity. Qed.

Example base64_encode_pad :
  Base64.encode "Ma" = "TWE=" /\ Base64.encode "M" = "TQ=="
  /\ Base64.encode "" = "AA==".
Proof. repeat split. Qed.

(** [decode] takes text that is not the encoding of anything. *)
Example base64_decode_lenient :
  Base64.decode "QQ==Q0s=" = Resolved (Js.units "ACK")
  /\ Base64.decode "QUJ" = Resolved (Js.units "AB@")
  /\ Base64.decode "" = Resolved [0; 0; 0]%N
  /\ Base64.decode "=AAA" = Resolved [256; 0; 0]%N
  /\ Base64.decode "QUN!" = Rejected Base64.invalid.
Proof. repeat split. Qed.

(** ** The sender *)

Module SenderFacts.
Import Sender.

Lemma waitForAck_cases k chunks i payload st :
  (ackReceived st = true
   /\ transferWrites (waitForAck k chunks i payload st)
      = (transferWrites st ++ [payload])%list
   /\ ackReceived (waitForAck k chunks i payload st) = false)
  \/ (ackReceived st = false
      /\ transferWrites (waitForAck k chunks i payload st) = transferWrites st
      /\ ackReceived (waitForAck k chunks i payload st) = false).
Proof.
  unfold waitForAck. destruct (ackReceived st) eqn:E; [left | right];
    repeat split; try reflexivity. simpl. exact E.
Qed.

Lemma loopHead_frame k chunks i st :
  transferWrites (loopHead k chunks i st) = transferWrites st
  /\ ackReceived (loopHead k chunks i st) = ackReceived st.
Proof. unfold loopHead. destruct (i <? _)%nat; split; reflexivity. Qed.

(** A continuation writes at most one value, and only by consuming the
    acknowledgment flag. *)
Lemma resume_cases env k st :
  (ackReceived st = true
   /\ (exists payload,
         transferWrites (resume env k st)
         = (transferWrites st ++ [payload])%list)
   /\ ackReceived (resume env k st) = false)
  \/ (transferWrites (resume env k st) = transferWrites st
      /\ ackReceived (resume env k st) = ackReceived st).
Proof.
  unfold resume.
  destruct (nth_error (tasks st) k) as [[uri | chunks i | chunks i p | chunks i |]|];
    try (right; split; reflexivity).
  - destruct (readFileAsBase64 env uri).
    + right. apply loopHead_frame.
    + right. split; reflexivity.
  - destruct (encryptChunk _ _ _ _).
    + destruct (waitForAck_cases k chunks i (Base64.encode value) st)
        as [(A & W & F) | (A & W & F)].
      * left. eauto.
      * right. split; congruence.
    + right. split; reflexivity.
  - destruct (waitForAck_cases k chunks i p st) as [(A & W & F) | (A & W & F)].
    + left. eauto.
    + right. split; congruence.
  - right. destruct (writeCompletes env k i); [| split; reflexivity].
    apply (loopHead_frame k chunks (i + 1)
             (setTransferProgress (percent i (List.length chunks)) st)).
Qed.

Lemma onNotification_writes n st :
  transferWrites (onNotification n st) = transferWrites st.
Proof.
  unfold onNotification. destruct n as [c | m]; [| reflexivity].
  destruct (truthy c) as [v |]; [| reflexivity].
  destruct (Base64.decode v) as [d |]; [| reflexivity].
  destruct (isACK d); reflexivity.
Qed.

Lemma onNotification_ack n st :
  isAck (Notification n) = false ->
  ackReceived (onNotification n st) = ackReceived st.
Proof.
  unfold onNotification, isAck. destruct n as [c | m]; [| reflexivity].
  destruct (truthy c) as [v |]; [| reflexivity].
  destruct (Base64.decode v) as [d |]; [| reflexivity].
  intros ->. reflexivity.
Qed.

Lemma sendFileChunks_frame st :
  transferWrites (sendFileChunks st) = transferWrites st
  /\ ackReceived (sendFileChunks st) = ackReceived st.
Proof.
  unfold sendFileChunks. destruct (fileInfo st); [| split; reflexivity].
  destruct (_ || _); [split; reflexivity |].
  destruct (aesKey st); split; reflexivity.
Qed.

Lemma disconnectDevice_frame st :
  transferWrites (disconnectDevice st) = transferWrites st
  /\ ackReceived (disconnectDevice st) = ackReceived st.
Proof.
  unfold disconnectDevice. destruct (connectedDevice st); split; reflexivity.
Qed.

(** One event: either it writes one value, the flag being set before and
    cleared after, or it writes nothing, and then it clears no flag and sets
    it only when it is an acknowledgment. *)
Lemma step_cases env st ev :
  (ackReceived st = true
   /\ (exists payload,
         transferWrites (step env st ev)
         = (transferWrites st ++ [payload])%list)
   /\ ackReceived (step env st ev) = false)
  \/ (transferWrites (step env st ev) = transferWrites st
      /\ (isAck ev = false -> ackReceived (step env st ev) = ackReceived st)).
Proof.
  destruct ev as [k | n | |]; cbn [step].
  - destruct (resume_cases env k st) as [H | [W A]]; [left; exact H | right].
    split; [exact W | intros _; exact A].
  - right. split; [apply onNotification_writes | apply onNotification_ack].
  - right. destruct (sendFileChunks_frame st) as [W A]. split; [exact W | intros _; exact A].
  - right. destruct (disconnectDevice_frame st) as [W A]. split; [exact W | intros _; exact A].
Qed.

Lemma wrote_true env st ev :
  wrote env st ev = true ->
  ackReceived st = true /\ ackReceived (step env st ev) = false.
Proof.
  unfold wrote. intros H. apply Nat.ltb_lt in H.
  destruct (step_cases env st ev) as [(A & _ & F) | [W _]]; [now split |].
  rewrite W in H. lia.
Qed.


(** While no acknowledgment comes in, a cleared flag stays cleared and
    nothing is written. *)
Lemma run_without_ack env evs : forall st,
  ackReceived st = false ->
  existsb isAck evs = false ->
  ackReceived (run env st evs) = false
  /\ transferWrites (run env st evs) = transferWrites st.
Proof.
  induction evs as [| ev evs IH]; intros st A N; [now split |].
  cbn [existsb] in N. apply orb_false_elim in N. destruct N as [Nev Nevs].
  cbn [run fold_left].
  destruct (step_cases env st ev) as [(A' & _) | [W K]]; [congruence |].
  specialize (K Nev). rewrite A in K.
  destruct (IH (step env st ev) K Nevs) as [A2 W2]. unfold run in *. split; congruence.
Qed.

(** *** Waiting for an acknowledgment *)

Lemma update_same {A : Type} (l : list A) : forall k x,
  nth_error l k = Some x -> update k x l = l.
Proof.
  induction l as [| y l IH]; intros [| k] x H; cbn in *; try reflexivity.
  - congruence.
  - now rewrite IH.
Qed.

Lemma setTasks_same st : setTasks (tasks st) st = st.
Proof. destruct st; reflexivity. Qed.

Lemma resume_sleeping env k st chunks i payload :
  nth_error (tasks st) k = Some (Sleeping chunks i payload) ->
  ackReceived st = false ->
  resume env k st = st.
Proof.
  intros T A. unfold resume. rewrite T. unfold waitForAck. rewrite A.
  unfold setTask. rewrite (update_same _ _ _ T). apply setTasks_same.
Qed.

Lemma polls_forever env k st chunks i payload :
  nth_error (tasks st) k = Some (Sleeping chunks i payload) ->
  ackReceived st = false ->
  forall n, run env st (repeat (Resume k) n) = st.
Proof.
  intros T A. induction n as [| n IH]; [reflexivity |].
  cbn [repeat run fold_left step]. rewrite (resume_sleeping _ _ _ _ _ _ T A).
  exact IH.
Qed.

End SenderFacts.

(** ** The applications from their start *)

Module StartFacts.
Import Start.

(** The key derivation throws, whatever the engine. *)
Lemma aesKeyHex_throws engine secret :
  Imports.aesKeyHex engine secret
  = Rejected (match Imports.Buffer_hex engine with
              | Some _ => Imports.notAFunction engine
              | None => Imports.notDefined engine
              end).
Proof.
  unfold Imports.aesKeyHex, Imports.sha256.
  now destruct (Imports.Buffer_hex engine).
Qed.

Lemma sender_deriveAESKey engine secret st :
  Sender.deriveAESKey engine secret st
  = Sender.setError
      (Some ("AES key derivation error: "
             ++ match Imports.Buffer_hex engine with
                | Some _ => Imports.notAFunction engine
                | None => Imports.notDefined engine
                end)) st.
Proof. unfold Sender.deriveAESKey. now rewrite aesKeyHex_throws. Qed.

Lemma receiver_deriveAESKey engine secret st :
  Receiver.deriveAESKey engine secret st
  = Receiver.setError
      (Some ("AES key derivation error: "
             ++ match Imports.Buffer_hex engine with
                | Some _ => Imports.notAFunction engine
                | None => Imports.notDefined engine
                end)) st.
Proof. unfold Receiver.deriveAESKey. now rewrite aesKeyHex_throws. Qed.

Lemma sameTransfer_refl st : sameTransfer st st.
Proof. now repeat split. Qed.

Lemma keyExchangeFailed_same h closure m st :
  sameTransfer st (fst (Sender.keyExchangeFailed h closure m st)).
Proof.
  unfold Sender.keyExchangeFailed.
  destruct closure; [destruct (Sender.cancelled h) |]; now repeat split.
Qed.

Lemma performKeyExchange_same nacl engine h closure st :
  sameTransfer st (fst (Sender.performKeyExchange nacl engine h closure st)).
Proof.
  unfold Sender.performKeyExchange.
  repeat match goal with
         | |- context [match ?x with _ => _ end] =>
             match x with
             | Sender.written h => destruct x
             | Sender.peer h => destruct x
             | truthy _ => destruct x
             | Base64.decode _ => destruct x
             | box_before _ _ _ => destruct x
             end
         end;
    try (apply (keyExchangeFailed_same h closure _
                  (Sender.writeWithResponse _ (Sender.setKeys _ _ _ st)))).
  cbn [fst]. rewrite sender_deriveAESKey. now repeat split.
Qed.

Lemma connectToDevice_same nacl engine c st :
  sameTransfer st (Sender.connectToDevice nacl engine c st).
Proof.
  unfold Sender.connectToDevice.
  destruct (Sender.connected c); [| now repeat split].
  destruct (Sender.discovered c); [| now repeat split].
  destruct (Sender.services c); [| now repeat split].
  destruct (Discovery.findCharacteristics _); [| now repeat split].
  destruct (Discovery.missing _).
  { destruct (Sender.cancelled _); now repeat split. }
  destruct (Sender.monitored c); [| now repeat split].
  match goal with
  | |- context [Sender.performKeyExchange ?n ?e ?h ?cl ?s] =>
      pose proof (performKeyExchange_same n e h cl s) as P;
        destruct (Sender.performKeyExchange n e h cl s) as [s' [m |]]
  end; cbn [fst] in P; destruct P as (A & B & C & D & E & F);
    cbn in A, B, C, D, E, F; repeat split; cbn; congruence.
Qed.

Lemma handle_keyless env st input :
  keyless st -> keyless (Sender.handle env st input).
Proof.
  intros (K & T & W & A). destruct input as [ev | nacl engine c | res].
  - destruct ev as [k | n | |]; cbn [Sender.handle Sender.step].
    + unfold Sender.resume. rewrite T. destruct k; now repeat split.
    + unfold Sender.onNotification. destruct n as [c | m]; [| now repeat split].
      destruct (truthy c); [| now repeat split].
      destruct (Base64.decode _); [| now repeat split].
      destruct (Sender.isACK _); now repeat split.
    + unfold Sender.sendFileChunks.
      destruct (Sender.fileInfo st); [| now repeat split].
      destruct (_ || _); [now repeat split |].
      rewrite K. now repeat split.
    + unfold Sender.disconnectDevice.
      destruct (Sender.connectedDevice st); now repeat split.
  - cbn [Sender.handle].
    destruct (connectToDevice_same nacl engine c st) as (A' & B & C & D & _).
    unfold keyless. now rewrite A', B, C, D.
  - cbn [Sender.handle]. unfold Sender.pickFile. destruct res; now repeat split.
Qed.

Lemma live_keyless env inputs : forall st,
  keyless st -> keyless (Sender.live env st inputs).
Proof.
  induction inputs as [| input inputs IH]; intros st K; [exact K |].
  cbn [Sender.live fold_left]. apply IH, handle_keyless, K.
Qed.

Lemma initial_keyless : keyless Sender.initial.
Proof. now repeat split. Qed.

End StartFacts.

Module ReceiverStartFacts.
Import Start.

Lemma Forall_update {A : Type} (P : A -> Prop) (x : A) (l : list A) :
  forall k, P x -> Forall P l -> Forall P (Sender.update k x l).
Proof.
  induction l as [| y l IH]; intros k Px F; [destruct k; constructor |].
  inversion F; subst. destruct k; cbn; constructor; auto.
Qed.

(** The handshake changes the keys, the error and the handshake log. *)
Lemma performKeyExchange_frame nacl engine h st :
  let st' := Receiver.performKeyExchange nacl engine h st in
  Receiver.aesKey st' = Receiver.aesKey st
  /\ Receiver.totalChunks st' = Receiver.totalChunks st
  /\ Receiver.files st' = Receiver.files st
  /\ Receiver.tasks st' = Receiver.tasks st
  /\ Receiver.receivedChunks st' = Receiver.receivedChunks st
  /\ Receiver.transferWrites st' = Receiver.transferWrites st
  /\ Receiver.receivedFileName st' = Receiver.receivedFileName st.
Proof.
  unfold Receiver.performKeyExchange.
  destruct (Receiver.peer h) as [value | m]; [| now repeat split].
  destruct (truthy value); [| now repeat split].
  destruct (Base64.decode _); [| now repeat split].
  destruct (Receiver.written h); [| now repeat split].
  destruct (box_before _ _ _); [| now repeat split].
  rewrite StartFacts.receiver_deriveAESKey. now repeat split.
Qed.

Lemma onDeviceConnected_frame nacl engine c st :
  let st' := Receiver.onDeviceConnected nacl engine c st in
  Receiver.aesKey st' = Receiver.aesKey st
  /\ Receiver.totalChunks st' = Receiver.totalChunks st
  /\ Receiver.files st' = Receiver.files st
  /\ Receiver.tasks st' = Receiver.tasks st
  /\ Receiver.receivedChunks st' = Receiver.receivedChunks st
  /\ Receiver.transferWrites st' = Receiver.transferWrites st
  /\ Receiver.receivedFileName st' = Receiver.receivedFileName st.
Proof.
  unfold Receiver.onDeviceConnected.
  destruct (Receiver.failure c); [now repeat split |].
  destruct (Receiver.discovered c); [| now repeat split].
  destruct (Receiver.services c); [| now repeat split].
  destruct (Discovery.findCharacteristics _); [| now repeat split].
  destruct (Discovery.missing _); [now repeat split |].
  apply (performKeyExchange_frame nacl engine (Receiver.handshake c)
           (Receiver.setConnectionStatus "Connected"
              (Receiver.setConnectedDevice (Some (Receiver.device c)) st))).
Qed.

Lemma step_unkeyed env st ev : unkeyed st -> unkeyed (Receiver.step env st ev).
Proof.
  intros (K & Z & F). destruct ev as [k | n | nacl engine c | err |];
    cbn [Receiver.step].
  - unfold Receiver.resume.
    destruct (nth_error (Receiver.tasks st) k) as [[[p | m] | | path |] |];
      try (now repeat split).
    + destruct (Receiver.ackCompletes env k); [| now repeat split].
      cbn [Receiver.setTransferProgress Receiver.receivedChunks
           Receiver.totalChunks].
      destruct (List.length (Receiver.receivedChunks st)
                =? Receiver.totalChunks st)%nat eqn:E; [| now repeat split].
      apply Nat.eqb_eq in E. rewrite Z in E.
      destruct (Receiver.receivedChunks st) eqn:R; [| discriminate].
      repeat split; try assumption. cbn. rewrite R.
      apply Forall_app. split; [exact F | now constructor].
    + destruct (Receiver.saveCompletes env k); now repeat split.
  - unfold Receiver.onNotification. destruct n as [c | m]; [| now repeat split].
    destruct (truthy c); [| now repeat split].
    destruct (Base64.decode _); now repeat split.
  - destruct (onDeviceConnected_frame nacl engine c st) as (A & B & C & _).
    unfold unkeyed. now rewrite A, B, C.
  - unfold Receiver.onDeviceDisconnected. destruct err; now repeat split.
  - unfold Receiver.disconnectDevice.
    destruct (Receiver.connectedDevice st); now repeat split.
Qed.

Lemma run_unkeyed env evs : forall st,
  unkeyed st -> unkeyed (Receiver.run env st evs).
Proof.
  induction evs as [| ev evs IH]; intros st U; [exact U |].
  cbn [Receiver.run fold_left]. apply IH, step_unkeyed, U.
Qed.

Lemma initial_unkeyed : unkeyed Receiver.initial.
Proof. repeat split. constructor. Qed.

(** Without a key a package that is [keyed] decrypts nothing. *)
Lemma decryptReceived_keyed aes data :
  keyed aes -> exists m, Receiver.decryptReceived aes None data = Rejected m.
Proof.
  intros [N W]. unfold Receiver.decryptReceived, Receiver.decryptChunk.
  destruct (Js.narrow data) as [text |]; [| eauto].
  destruct (Base64.decode text) as [encryptedData | m]; [| eauto].
  destruct (Js.narrow encryptedData) as [t |].
  - destruct (N (Js.drop 12 t) (Js.slice 0 12 t)) as [m ->]. eauto.
  - destruct (W (Receiver.cipherUnits encryptedData)
                (Receiver.ivUnits encryptedData)) as [m ->]. eauto.
Qed.

Lemma step_idle env st ev :
  keyed (Receiver.aes env) -> idle st -> idle (Receiver.step env st ev).
Proof.
  intros Hk (K & R & W & F & N & T).
  destruct ev as [k | n | nacl engine c | err |]; cbn [Receiver.step].
  - unfold Receiver.resume.
    destruct (nth_error (Receiver.tasks st) k) as [t |] eqn:E;
      [| now repeat split].
    pose proof (proj1 (Forall_forall _ _) T t (nth_error_In _ _ E)) as Ft.
    destruct t as [[p | m] | | path |]; try destruct Ft;
      [| now repeat split].
    repeat split; try assumption. cbn.
    apply Forall_update; [exact I | exact T].
  - unfold Receiver.onNotification. destruct n as [c | m]; [| now repeat split].
    destruct (truthy c); [| now repeat split].
    destruct (Base64.decode _) as [data |]; [| now repeat split].
    repeat split; try assumption. cbn. rewrite K.
    apply Forall_app. split; [exact T |].
    destruct (decryptReceived_keyed (Receiver.aes env) data Hk) as [m ->].
    repeat constructor.
  - destruct (onDeviceConnected_frame nacl engine c st)
      as (A & _ & C & D & E & G & H).
    unfold idle. now rewrite A, C, D, E, G, H.
  - unfold Receiver.onDeviceDisconnected. destruct err; now repeat split.
  - unfold Receiver.disconnectDevice.
    destruct (Receiver.connectedDevice st); now repeat split.
Qed.

Lemma run_idle env evs : forall st,
  keyed (Receiver.aes env) -> idle st -> idle (Receiver.run env st evs).
Proof.
  induction evs as [| ev evs IH]; intros st Hk U; [exact U |].
  cbn [Receiver.run fold_left]. apply IH; [exact Hk |]. now apply step_idle.
Qed.

Lemma initial_idle : idle Receiver.initial.
Proof. repeat split. constructor. Qed.


Lemma prefix_append (s t : string) : String.prefix s (s ++ t) = true.
Proof.
  induction s as [| c s IH]; cbn; [now destruct t |].
  destruct (ascii_dec c c); [exact IH | congruence].
Qed.

Lemma Sealed_lawful : lawful Sealed.lib.
Proof.
  intros text key iv cipher. cbn. unfold Sealed.encrypt, Sealed.decrypt.
  intros [= <-]. rewrite <- JsFacts.append_assoc, prefix_append.
  now rewrite JsFacts.drop_append.
Qed.

End ReceiverStartFacts.

(** ** The two applications together *)

Module SessionFacts.
Import Session.

Lemma pending_app ts ts' : pending (ts ++ ts') = pending ts + pending ts'.
Proof.
  induction ts as [| t ts IH]; [reflexivity |].
  destruct t; cbn; rewrite IH; lia.
Qed.

(** Replacing a task that is [Decrypting] takes one from the count,
    replacing any other leaves it. *)
Lemma pending_update ts : forall k t t',
  nth_error ts k = Some t ->
  pending (Sender.update k t' ts) + pending [t] = pending ts + pending [t'].
Proof.
  induction ts as [| x ts IH]; intros k t t' E; [destruct k; discriminate |].
  destruct k as [| k].
  - cbn in E. injection E as ->. destruct t, t'; cbn; lia.
  - cbn in E. specialize (IH k t t' E). destruct x; cbn in *; lia.
Qed.

(** What one event does to the receiver's log of acknowledgments and to
    the calls still to acknowledge: their sum grows only by a
    notification, and then by one at most. *)
Lemma receiver_step_writes env st ev :
  List.length (Receiver.transferWrites st)
  <= List.length (Receiver.transferWrites (Receiver.step env st ev))
  /\ List.length (Receiver.transferWrites (Receiver.step env st ev))
     + pending (Receiver.tasks (Receiver.step env st ev))
     <= List.length (Receiver.transferWrites st)
        + pending (Receiver.tasks st)
        + match ev with
          | Receiver.Notification _ => 1
          | _ => 0
          end.
Proof.
  destruct ev as [k | n | nacl engine c | err |]; cbn [Receiver.step].
  - unfold Receiver.resume.
    destruct (nth_error (Receiver.tasks st) k) as [t |] eqn:E; [| lia].
    destruct t as [[p | m] | | path |].
    + pose proof (pending_update _ k _ Receiver.Acknowledging E) as P.
      cbn in *. rewrite length_app. cbn. lia.
    + pose proof (pending_update _ k _ Receiver.Returned E) as P.
      cbn in *. lia.
    + destruct (Receiver.ackCompletes env k).
      * cbn [Receiver.setTransferProgress Receiver.receivedChunks
             Receiver.totalChunks].
        destruct (_ =? _)%nat.
        -- pose proof (pending_update _ k _
                         (Receiver.Saving
                            (Receiver.DocumentDirectoryPath env
                             ++ "/received_file.txt")) E) as P.
           cbn in *. lia.
        -- pose proof (pending_update _ k _ Receiver.Returned E) as P.
           cbn in *. lia.
      * pose proof (pending_update _ k _ Receiver.Returned E) as P.
        cbn in *. lia.
    + pose proof (pending_update _ k _ Receiver.Returned E) as P.
      destruct (Receiver.saveCompletes env k); cbn in *; lia.
    + lia.
  - unfold Receiver.onNotification. destruct n as [c | m]; [cbn | cbn; lia].
    destruct (truthy c) as [v |]; [| lia].
    destruct (Base64.decode v) as [d |]; [| lia].
    cbn. rewrite pending_app. cbn. lia.
  - destruct (ReceiverStartFacts.onDeviceConnected_frame nacl engine c st)
      as (_ & _ & _ & T & _ & W & _).
    rewrite T, W. lia.
  - unfold Receiver.onDeviceDisconnected. destruct err; cbn; lia.
  - unfold Receiver.disconnectDevice.
    destruct (Receiver.connectedDevice st); cbn; lia.
Qed.

(** The buffer is covered by the acknowledgments handed over. *)
Lemma receiver_step_buffer env st ev :
  List.length (Receiver.receivedChunks st)
  <= List.length (Receiver.transferWrites st) ->
  List.length (Receiver.receivedChunks (Receiver.step env st ev))
  <= List.length (Receiver.transferWrites (Receiver.step env st ev)).
Proof.
  intros L. destruct ev as [k | n | nacl engine c | err |];
    cbn [Receiver.step].
  - unfold Receiver.resume.
    destruct (nth_error (Receiver.tasks st) k) as [[[p | m] | | path |] |];
      try exact L.
    + cbn. rewrite !length_app. cbn. lia.
    + destruct (Receiver.ackCompletes env k); [| exact L].
      cbn [Receiver.setTransferProgress Receiver.receivedChunks
           Receiver.totalChunks].
      destruct (_ =? _)%nat; exact L.
    + destruct (Receiver.saveCompletes env k); exact L.
  - unfold Receiver.onNotification. destruct n as [c | m]; [| exact L].
    destruct (truthy c) as [v |]; [| exact L].
    destruct (Base64.decode v) as [d |]; exact L.
  - destruct (ReceiverStartFacts.onDeviceConnected_frame nacl engine c st)
      as (_ & _ & _ & _ & R & W & _).
    now rewrite R, W.
  - unfold Receiver.onDeviceDisconnected. destruct err; cbn; lia.
  - unfold Receiver.disconnectDevice.
    destruct (Receiver.connectedDevice st); cbn; lia.
Qed.

Ltac session_simpl :=
  unfold inStep;
  cbn [sender receiver framesTaken acksTaken takeFrame takeAck atReceiver
       atSender].

Lemma nth_error_lt {A : Type} (l : list A) (n : nat) (x : A) :
  nth_error l n = Some x -> n < List.length l.
Proof. intros E. apply nth_error_Some. congruence. Qed.

Lemma sender_step_inStep env st ev :
  Sender.isAck ev = false ->
  inStep st -> inStep (atSender env (Sender.During ev) st).
Proof.
  intros N (A & B & C & D). session_simpl. cbn [Sender.handle].
  destruct (SenderFacts.step_cases (senderEnv env) (sender st) ev)
    as [(T & (p & W) & F) | [W K]].
  - rewrite W, F, length_app. rewrite T in A. cbn in *. lia.
  - rewrite W, (K N). lia.
Qed.

Lemma sender_input_inStep env st input :
  match input with Sender.During _ => False | _ => True end ->
  inStep st -> inStep (atSender env input st).
Proof.
  intros N (A & B & C & D). session_simpl.
  destruct input as [ev | nacl engine c | res]; [destruct N | |];
    cbn [Sender.handle].
  - destruct (StartFacts.connectToDevice_same nacl engine c (sender st))
      as (_ & _ & W & F & _).
    rewrite W, F. lia.
  - unfold Sender.pickFile. destruct res; cbn; lia.
Qed.

Lemma receiver_event_inStep env st ev :
  match ev with Receiver.Notification _ => False | _ => True end ->
  inStep st -> inStep (atReceiver env ev st).
Proof.
  intros N (A & B & C & D). session_simpl.
  pose proof (receiver_step_writes (receiverEnv env) (receiver st) ev) as [L U].
  destruct ev; try destruct N; lia.
Qed.

Lemma step_inStep env st ev : inStep st -> inStep (step env st ev).
Proof.
  intros I. destruct ev; cbn [step];
    try (apply sender_step_inStep; [reflexivity | exact I]);
    try (apply sender_input_inStep; [exact Logic.I | exact I]);
    try (apply receiver_event_inStep; [exact Logic.I | exact I]);
    (destruct (nth_error _ _) as [value |] eqn:E; [| exact I]);
    apply nth_error_lt in E; destruct I as (A & B & C & D); session_simpl.
  - destruct (receiver_step_writes (receiverEnv env) (receiver st)
                (Receiver.Notification (Resolved (Some value)))) as [L U].
    lia.
  - lia.
  - cbn [Sender.handle Sender.step]. rewrite SenderFacts.onNotification_writes.
    destruct (Sender.ackReceived (sender st)),
             (Sender.ackReceived (Sender.onNotification _ _)); lia.
  - lia.
Qed.

Lemma run_inStep env evs : forall st, inStep st -> inStep (run env st evs).
Proof.
  induction evs as [| ev evs IH]; intros st I; [exact I |].
  cbn [run fold_left]. apply IH, step_inStep, I.
Qed.

Lemma fresh_inStep st : fresh st -> inStep st.
Proof.
  intros (A & B & C & D & T). unfold inStep. rewrite A, B, C, D, T. cbn.
  destruct (Sender.ackReceived (sender st)); lia.
Qed.

Lemma step_buffer env st ev :
  List.length (Receiver.receivedChunks (receiver st))
  <= List.length (Receiver.transferWrites (receiver st)) ->
  List.length (Receiver.receivedChunks (receiver (step env st ev)))
  <= List.length (Receiver.transferWrites (receiver (step env st ev))).
Proof.
  intros L.
  destruct ev; cbn [step atSender atReceiver receiver]; try exact L;
    try (now apply receiver_step_buffer);
    destruct (nth_error _ _) as [value |]; try exact L;
    cbn [takeFrame takeAck atSender atReceiver receiver]; try exact L.
  now apply receiver_step_buffer.
Qed.

Lemma run_buffer env evs : forall st,
  List.length (Receiver.receivedChunks (receiver st))
  <= List.length (Receiver.transferWrites (receiver st)) ->
  List.length (Receiver.receivedChunks (receiver (run env st evs)))
  <= List.length (Receiver.transferWrites (receiver (run env st evs))).
Proof.
  induction evs as [| ev evs IH]; intros st L; [exact L |].
  cbn [run fold_left]. apply IH, step_buffer, L.
Qed.

(** From their start nothing passes between the two applications. *)
Lemma step_apart env st ev : Start.apart st -> Start.apart (step env st ev).
Proof.
  intros (K & F & A & RK & RT & RC & RW & RF).
  assert (S1 : forall input,
             Start.apart (atSender env input st)).
  { intros input. unfold Start.apart. cbn.
    repeat split; try assumption;
      now apply (StartFacts.handle_keyless (senderEnv env) _ input K). }
  assert (R1 : forall ev',
             match ev' with Receiver.Notification _ => False | _ => True end ->
             Start.apart (atReceiver env ev' st)).
  { intros ev' N. unfold Start.apart. cbn [atReceiver sender receiver
                                            framesTaken acksTaken].
    destruct K as (K1 & K2 & K3 & K4).
    destruct ev' as [k | n | nacl engine c | err |]; try destruct N;
      cbn [Receiver.step].
    - unfold Receiver.resume. rewrite RT. destruct k; now repeat split.
    - destruct (ReceiverStartFacts.onDeviceConnected_frame nacl engine c
                  (receiver st)) as (A1 & _ & A3 & A4 & A5 & A6 & _).
      rewrite A1, A3, A4, A5, A6. now repeat split.
    - unfold Receiver.onDeviceDisconnected. destruct err; now repeat split.
    - unfold Receiver.disconnectDevice.
      destruct (Receiver.connectedDevice _); now repeat split. }
  destruct K as (K1 & K2 & K3 & K4).
  destruct ev; cbn [step]; try apply S1; try (apply R1; exact I);
    rewrite ?K3, ?RW, ?F, ?A; cbn; now repeat split.
Qed.

Lemma run_apart env evs : forall st,
  Start.apart st -> Start.apart (run env st evs).
Proof.
  induction evs as [| ev evs IH]; intros st U; [exact U |].
  cbn [run fold_left]. apply IH, step_apart, U.
Qed.

Lemma initial_apart : Start.apart initial.
Proof. now repeat split. Qed.

End SessionFacts.

(** ** Acknowledgments and frames, counted *)

Module CountFacts.
Import Start.






End CountFacts.

(** ** What the frame-building code returns *)

Module FrameFacts.

Lemma encryptChunk_frame aes key iv chunk encrypted :
  Sender.encryptChunk aes key iv chunk = Resolved encrypted ->
  exists cipher,
    AES_encrypt aes chunk key iv = Resolved cipher
    /\ encrypted = iv ++ cipher.
Proof.
  unfold Sender.encryptChunk.
  destruct (AES_encrypt aes chunk key iv) as [cipher | m]; [| discriminate].
  intros [= <-]. eauto.
Qed.

End FrameFacts.

(** ** Chunks *)

Module PipelineFacts.
Import JsFacts Base64Facts.

(** *** Chunking *)

Lemma take_all (n : nat) (s : string) :
  String.length s <= n -> Js.take n s = s.
Proof.
  revert s; induction n as [| n IH]; intros [| c s] L; cbn in *;
    try reflexivity; try lia.
  rewrite IH; [reflexivity | lia].
Qed.

Lemma drop_all (n : nat) (s : string) :
  String.length s <= n -> Js.drop n s = "".
Proof.
  revert s; induction n as [| n IH]; intros [| c s] L; cbn in *;
    try reflexivity; try lia.
  apply IH. lia.
Qed.

Lemma drop_drop (n m : nat) (s : string) :
  Js.drop m (Js.drop n s) = Js.drop (n + m) s.
Proof.
  revert s; induction n as [| n IH]; intros s; [reflexivity |].
  destruct s as [| c s]; cbn [Js.drop Nat.add].
  - now destruct m.
  - apply IH.
Qed.

Lemma slice_from (index size : nat) (s : string) :
  Js.slice index (index + size) s = Js.take size (Js.drop index s).
Proof. unfold Js.slice. f_equal. lia. Qed.

(** The loop cuts the text from [index] on, whole. *)
Lemma chunkLoop_join (s : string) : forall fuel index,
  String.length s - index <= fuel ->
  Js.join (Sender.chunkLoop fuel index s) = Js.drop index s.
Proof.
  induction fuel as [| fuel IH]; intros index F; cbn [Sender.chunkLoop].
  - cbn. symmetry. apply drop_all. lia.
  - destruct (index <? String.length s)%nat eqn:E.
    + apply Nat.ltb_lt in E. cbn [Js.join fold_right].
      change (fold_right append "" ?l) with (Js.join l).
      rewrite IH by (unfold Sender.CHUNK_SIZE; lia).
      rewrite slice_from, <- drop_drop. apply take_drop.
    + apply Nat.ltb_ge in E. cbn. symmetry. apply drop_all. lia.
Qed.

Lemma chunkBase64String_join (s : string) :
  Js.join (Sender.chunkBase64String s) = s.
Proof.
  unfold Sender.chunkBase64String. rewrite chunkLoop_join; [reflexivity | lia].
Qed.

Lemma chunkLoop_sizes (s : string) : forall fuel index,
  Forall (fun chunk => String.length chunk <= Sender.CHUNK_SIZE)
         (Sender.chunkLoop fuel index s).
Proof.
  induction fuel as [| fuel IH]; intros index; cbn [Sender.chunkLoop];
    [constructor |].
  destruct (index <? String.length s)%nat; [| constructor].
  constructor; [| apply IH].
  rewrite slice_from, length_take. apply Nat.le_min_l.
Qed.

Lemma first_chunk_full (s : string) :
  Sender.CHUNK_SIZE <= String.length s ->
  String.length (nth 0 (Sender.chunkBase64String s) "") = Sender.CHUNK_SIZE.
Proof.
  intros L. unfold Sender.chunkBase64String.
  destruct (String.length s) as [| n] eqn:E;
    [unfold Sender.CHUNK_SIZE in L; lia |].
  cbn [Sender.chunkLoop]. rewrite E.
  change (0 <? S n)%nat with true. cbn [nth].
  rewrite (slice_from 0), length_take, length_drop. lia.
Qed.

End PipelineFacts.

(** * The properties of the protocol description *)

(** ** C1: round trip of a frame *)

(** C1, on the code.  The claim is about the frame the sender makes for a
    chunk under the key of the handshake.  No handshake of the two
    applications gives a key ([deriveAESKey] throws, see C5): whatever
    happens from their start, neither [aesKey] cell is ever filled, the
    sender hands no frame to the transfer characteristic, and the
    receiver's buffer stays empty, so no chunk is recovered. *)
Theorem no_chunk_reaches_the_receiver (env : Session.Env)
    (evs : list Session.Event) :
  let now := Session.run env Session.initial evs in
  Sender.aesKey (Session.sender now) = None
  /\ Receiver.aesKey (Session.receiver now) = None
  /\ Sender.transferWrites (Session.sender now) = []
  /\ Receiver.receivedChunks (Session.receiver now) = [].
Proof.
  destruct (SessionFacts.run_apart env evs Session.initial
              SessionFacts.initial_apart)
    as ((K & _ & W & _) & _ & _ & RK & _ & RC & _).
  now repeat split.
Qed.

(** Both applications connect, the handshake values are exchanged as they
    should be, the file is picked and Send is pressed: the sender refuses,
    and has written its public key only. *)
Example send_is_refused :
  let now := Session.run Sample.sealedEnv Session.initial Sample.start in
  Sender.error (Session.sender now) = Some "Encryption key not established"
  /\ Sender.sharedSecret (Session.sender now) = Some Sample.secret
  /\ Receiver.sharedSecret (Session.receiver now) = Some Sample.secret
  /\ Receiver.error (Session.receiver now)
     = Some "AES key derivation error: Property 'Buffer' doesn't exist"
  /\ Sender.tasks (Session.sender now) = []
  /\ Sender.transferWrites (Session.sender now) = []
  /\ Sender.handshakeWrites (Session.sender now)
     = [Sample.handshakeValue Sample.senderPair].
Proof. vm_compute. repeat split. Qed.

(** ** C2: completion *)

(** C2, on the code.  [totalChunks] is never assigned anything but 0, so
    the completion test succeeds only when the buffer is empty: every file
    the receiver writes, from its start and whatever it is sent, is empty.
    With a cipher package that decrypts nothing without a key the receiver
    buffers nothing and writes no file at all. *)
Theorem completion_writes_no_chunk (env : Receiver.Env)
    (evs : list Receiver.Event) :
  let st := Receiver.run env Receiver.initial evs in
  Receiver.totalChunks st = 0
  /\ Forall (fun file => snd file = "") (Receiver.files st)
  /\ (keyed (Receiver.aes env) ->
      Receiver.receivedChunks st = [] /\ Receiver.files st = []
      /\ Receiver.receivedFileName st = None).
Proof.
  destruct (ReceiverStartFacts.run_unkeyed env evs Receiver.initial
              ReceiverStartFacts.initial_unkeyed) as (_ & Z & F).
  split; [exact Z |]. split; [exact F |].
  intros Hk.
  destruct (ReceiverStartFacts.run_idle env evs Receiver.initial Hk
              ReceiverStartFacts.initial_idle) as (_ & R & _ & Fl & N & _).
  now repeat split.
Qed.

(** The one case in which the test succeeds, shown with a cipher package
    that takes a missing key: a chunk is buffered, the connection drops
    while the acknowledgment is being written, and the continuation finds
    an empty buffer and the counter at 0. *)
Example empty_file_after_disconnect :
  let st :=
    Receiver.run (Session.receiverEnv Sample.plainEnv)
      Sample.receiverConnected
      [Receiver.Notification (Resolved (Some "UVVKRA=="));
       Receiver.Resume 0; Receiver.Disconnected None; Receiver.Resume 0;
       Receiver.Resume 0] in
  Receiver.files st = [("/data/files/received_file.txt", "")]
  /\ Receiver.receivedFileName st = Some "received_file.txt"
  /\ Receiver.transferProgress st = NotFinite
  /\ Receiver.receivedChunks st = [].
Proof. vm_compute. repeat split. Qed.

(** ** C3: the wire frame *)


(** ** C4: the payload size *)


(** ** C5: the key derivation *)

(** C5, on the code.  [deriveAESKey] derives nothing: naming [Buffer]
    throws where the engine has no such global, and the call of [sha256],
    a name the package does not export, throws where it has.  The
    exception is caught inside the function: the [aesKey] cell keeps what
    it held and the error is shown.  Hence no run of either application
    ever has a key. *)
Theorem key_derivation_stores_no_key (engine : Imports.Engine)
    (sharedSecretUint8 : list byte)
    (sender : Sender.State) (receiver : Receiver.State) :
  let message :=
    match Imports.Buffer_hex engine with
    | Some _ => Imports.notAFunction engine
    | None => Imports.notDefined engine
    end in
  (Sender.aesKey (Sender.deriveAESKey engine sharedSecretUint8 sender)
   = Sender.aesKey sender
   /\ Sender.error (Sender.deriveAESKey engine sharedSecretUint8 sender)
      = Some ("AES key derivation error: " ++ message))
  /\ (Receiver.aesKey
        (Receiver.deriveAESKey engine sharedSecretUint8 receiver)
      = Receiver.aesKey receiver
      /\ Receiver.error
           (Receiver.deriveAESKey engine sharedSecretUint8 receiver)
         = Some ("AES key derivation error: " ++ message))
  /\ (forall env inputs,
        Sender.aesKey (Sender.live env Sender.initial inputs) = None)
  /\ (forall env evs,
        Receiver.aesKey (Receiver.run env Receiver.initial evs) = None).
Proof.
  cbv zeta.
  rewrite StartFacts.sender_deriveAESKey, StartFacts.receiver_deriveAESKey.
  repeat split.
  - intros env inputs.
    apply (StartFacts.live_keyless env inputs Sender.initial
             StartFacts.initial_keyless).
  - intros env evs.
    apply (ReceiverStartFacts.run_unkeyed env evs Receiver.initial
             ReceiverStartFacts.initial_unkeyed).
Qed.

(** The secret of the sample handshake, on an engine without [Buffer]. *)
Example sample_secret_gives_no_key :
  Sender.aesKey (Sender.deriveAESKey Sample.engine Sample.secret
                   Sender.initial) = None
  /\ Sender.error (Sender.deriveAESKey Sample.engine Sample.secret
                     Sender.initial)
     = Some "AES key derivation error: Property 'Buffer' doesn't exist".
Proof. split; reflexivity. Qed.

(** ** C6: one frame outstanding *)


(** ** C7: no acknowledgment *)


(** ** C8: the acknowledgment *)

(** C8, as the code has it.  The receiver hands an acknowledgment to the
    transfer characteristic when a call of [processReceivedChunk] comes
    back from a decryption that succeeded, together with the push of the
    chunk, and at no other moment; it is the fixed text [ACK] under the
    transport encoding, the same for every chunk.  The sender's monitor
    sets the flag on every notification whose value decodes to [ACK],
    whatever the state of the sender. *)
Theorem acknowledgment_is_fixed_text (env : Receiver.Env)
    (receiver : Receiver.State) (sender : Sender.State) :
  (forall k,
     match nth_error (Receiver.tasks receiver) k with
     | Some (Receiver.Decrypting (Resolved decryptedChunk)) =>
         Receiver.transferWrites (Receiver.resume env k receiver)
         = (Receiver.transferWrites receiver ++ [Base64.encode "ACK"])%list
         /\ Receiver.receivedChunks (Receiver.resume env k receiver)
            = (Receiver.receivedChunks receiver ++ [decryptedChunk])%list
     | _ =>
         Receiver.transferWrites (Receiver.resume env k receiver)
         = Receiver.transferWrites receiver
     end)
  /\ (forall ev,
        match ev with
        | Receiver.Resume _ => True
        | _ =>
            Receiver.transferWrites (Receiver.step env receiver ev)
            = Receiver.transferWrites receiver
        end)
  /\ Base64.encode "ACK" = "QUNL"
  /\ (forall value,
        Base64.decode value = Resolved (Js.units "ACK") ->
        Sender.ackReceived
          (Sender.onNotification (Resolved (Some value)) sender) = true).
Proof.
  split; [| split; [| split; [reflexivity |]]].
  - intros k. unfold Receiver.resume.
    destruct (nth_error (Receiver.tasks receiver) k)
      as [[[p | m] | | path |] |]; try reflexivity.
    + split; reflexivity.
    + destruct (Receiver.ackCompletes env k); [| reflexivity].
      cbn [Receiver.setTransferProgress Receiver.receivedChunks
           Receiver.totalChunks].
      destruct (_ =? _)%nat; reflexivity.
    + destruct (Receiver.saveCompletes env k); reflexivity.
  - intros ev. destruct ev as [k | n | nacl engine c | err |];
      [exact I | | | |]; cbn [Receiver.step].
    + unfold Receiver.onNotification. destruct n as [c | m]; [| reflexivity].
      destruct (truthy c) as [v |]; [| reflexivity].
      destruct (Base64.decode v); reflexivity.
    + apply (ReceiverStartFacts.onDeviceConnected_frame nacl engine c receiver).
    + unfold Receiver.onDeviceDisconnected. destruct err; reflexivity.
    + unfold Receiver.disconnectDevice.
      destruct (Receiver.connectedDevice receiver); reflexivity.
  - intros value D. unfold Sender.onNotification.
    destruct value as [| a v]; [discriminate |].
    cbn [truthy]. rewrite D. reflexivity.
Qed.

(** C8, as stated, fails.  The sender has connected, the handshake and the
    choice of a file are over, and it has written no frame: no sequence
    number is outstanding.  A notification with the value [QUNL] comes in:
    the monitor takes it for an acknowledgment and sets the flag, though
    the value is not the sequence number of frame 0 (nor a 4-byte number
    under the transport encoding: it decodes to three bytes). *)
Lemma acknowledgment_has_no_sequence_number :
  Sender.transferWrites (Sample.senderConnected "file:///notes.txt") = []
  /\ Sender.isAck (Sender.Notification (Resolved (Some "QUNL"))) = true
  /\ Sender.ackReceived
       (Sender.onNotification (Resolved (Some "QUNL"))
          (Sample.senderConnected "file:///notes.txt")) = true
  /\ Spec.isAcknowledgment 0 "QUNL" = false
  /\ Base64.decode "QUNL" = Resolved (Js.units "ACK").
Proof. vm_compute. repeat split. Qed.

(** ** C9: a frame delivered twice *)



(** ** C10: disconnecting *)

(** C10, as the code has it.  The receiver's disconnect callback empties
    the reassembly buffer, zeroes the counter and resets what is shown of
    the connection and of the transfer; so do the Disconnect buttons of the
    receiver and of the sender (which registers no disconnect callback)
    when a device is connected, each for what its application shows.  None
    of the three touches the ephemeral key pair, the shared secret or the
    session-key cell. *)
Theorem disconnect_keeps_the_keys (sender : Sender.State)
    (receiver : Receiver.State) (err : option string) :
  (let receiver' := Receiver.onDeviceDisconnected err receiver in
   Receiver.ephemeralKeyPair receiver' = Receiver.ephemeralKeyPair receiver
   /\ Receiver.sharedSecret receiver' = Receiver.sharedSecret receiver
   /\ Receiver.aesKey receiver' = Receiver.aesKey receiver
   /\ Receiver.receivedChunks receiver' = []
   /\ Receiver.totalChunks receiver' = 0
   /\ Receiver.connectedDevice receiver' = None
   /\ Receiver.connectionStatus receiver' = "Disconnected"
   /\ Receiver.receivedFileName receiver' = None
   /\ Receiver.transferProgress receiver' = Percent 0)
  /\ match Receiver.connectedDevice receiver with
     | Some _ =>
         Receiver.disconnectDevice receiver
         = Receiver.onDeviceDisconnected None receiver
     | None => Receiver.disconnectDevice receiver = receiver
     end
  /\ match Sender.connectedDevice sender with
     | Some _ =>
         let sender' := Sender.disconnectDevice sender in
         Sender.ephemeralKeyPair sender' = Sender.ephemeralKeyPair sender
         /\ Sender.sharedSecret sender' = Sender.sharedSecret sender
         /\ Sender.aesKey sender' = Sender.aesKey sender
         /\ Sender.connectedDevice sender' = None
         /\ Sender.connectionStatus sender' = "Disconnected"
         /\ Sender.devices sender' = []
         /\ Sender.fileInfo sender' = None
         /\ Sender.transferProgress sender' = Percent 0
         /\ Sender.error sender' = None
     | None => Sender.disconnectDevice sender = sender
     end.
Proof.
  split; [| split].
  - unfold Receiver.onDeviceDisconnected. destruct err; now repeat split.
  - unfold Receiver.disconnectDevice, Receiver.onDeviceDisconnected.
    destruct (Receiver.connectedDevice receiver); reflexivity.
  - unfold Sender.disconnectDevice.
    destruct (Sender.connectedDevice sender); now repeat split.
Qed.

(** C10, as stated, fails.  Both applications have connected and exchanged
    their public keys; then the connection is lost at the receiver and
    Disconnect is pressed at the sender.  The key pair and the shared
    secret of the session are still in their cells on both sides. *)
Lemma keys_survive_disconnect :
  Receiver.ephemeralKeyPair
    (Receiver.onDeviceDisconnected None Sample.receiverConnected)
  = Some Sample.receiverPair
  /\ Receiver.sharedSecret
       (Receiver.onDeviceDisconnected None Sample.receiverConnected)
     = Some Sample.secret
  /\ Sender.ephemeralKeyPair
       (Sender.disconnectDevice (Sample.senderConnected "file:///abc.txt"))
     = Some Sample.senderPair
  /\ Sender.sharedSecret
       (Sender.disconnectDevice (Sample.senderConnected "file:///abc.txt"))
     = Some Sample.secret
  /\ Sender.connectedDevice
       (Sender.disconnectDevice (Sample.senderConnected "file:///abc.txt"))
     = None.
Proof. vm_compute. repeat split. Qed.

(** * Further properties of the code *)

(** ** The chunks of a file *)

Module ChunkFacts.
Import JsFacts PipelineFacts.

Lemma chunkLoop_count (s : string) : forall fuel index,
  String.length s - index <= fuel ->
  List.length (Sender.chunkLoop fuel index s)
  = (String.length s - index + 179) / 180.
Proof.
  induction fuel as [| fuel IH]; intros index F; cbn [Sender.chunkLoop].
  - replace (String.length s - index) with 0 by lia. reflexivity.
  - destruct (index <? String.length s)%nat eqn:E.
    + apply Nat.ltb_lt in E. cbn [List.length].
      rewrite IH by (unfold Sender.CHUNK_SIZE; lia).
      unfold Sender.CHUNK_SIZE.
      destruct (Nat.le_gt_cases 180 (String.length s - index)) as [G | L].
      * replace (String.length s - index + 179)
          with (1 * 180 + (String.length s - (index + 180) + 179)) by lia.
        rewrite Nat.div_add_l by lia. lia.
      * replace (String.length s - (index + 180)) with 0 by lia.
        change ((0 + 179) / 180) with 0.
        apply (Nat.div_unique _ 180 1 (String.length s - index - 1)); lia.
    + apply Nat.ltb_ge in E.
      replace (String.length s - index) with 0 by lia. reflexivity.
Qed.

Lemma chunkLoop_nth (s : string) : forall fuel index i,
  i < List.length (Sender.chunkLoop fuel index s) ->
  nth i (Sender.chunkLoop fuel index s) ""
  = Js.take 180 (Js.drop (index + 180 * i) s).
Proof.
  induction fuel as [| fuel IH]; intros index i L; cbn [Sender.chunkLoop] in *.
  - cbn in L. lia.
  - destruct (index <? String.length s)%nat; [| cbn in L; lia].
    destruct i as [| i]; cbn [nth].
    + rewrite slice_from. f_equal. f_equal. lia.
    + cbn [List.length] in L. rewrite IH by lia.
      unfold Sender.CHUNK_SIZE. f_equal. f_equal. lia.
Qed.

Lemma chunkLoop_nonempty (s : string) : forall fuel index,
  Forall (fun chunk => 0 < String.length chunk)
         (Sender.chunkLoop fuel index s).
Proof.
  induction fuel as [| fuel IH]; intros index; cbn [Sender.chunkLoop];
    [constructor |].
  destruct (index <? String.length s)%nat eqn:E; [| constructor].
  apply Nat.ltb_lt in E. constructor; [| apply IH].
  rewrite slice_from, length_take, length_drop. unfold Sender.CHUNK_SIZE. lia.
Qed.

End ChunkFacts.

(** X1.  [chunkBase64String] cuts the text into pieces that, put together in
    order, are the text: every piece has between 1 and 180 characters, every
    piece but the last has exactly 180, and there are as many pieces as 180
    goes into the length, rounded up (none for the empty text). *)
Theorem chunks_partition_the_text (base64Str : string) :
  Js.join (Sender.chunkBase64String base64Str) = base64Str
  /\ Forall (fun chunk => 0 < String.length chunk <= Sender.CHUNK_SIZE)
            (Sender.chunkBase64String base64Str)
  /\ List.length (Sender.chunkBase64String base64Str)
     = (String.length base64Str + 179) / 180
  /\ (forall i, S i < List.length (Sender.chunkBase64String base64Str) ->
        String.length (nth i (Sender.chunkBase64String base64Str) "")
        = Sender.CHUNK_SIZE).
Proof.
  split; [apply PipelineFacts.chunkBase64String_join |].
  split.
  - unfold Sender.chunkBase64String.
    pose proof (ChunkFacts.chunkLoop_nonempty base64Str
                  (String.length base64Str) 0) as P.
    pose proof (PipelineFacts.chunkLoop_sizes base64Str
                  (String.length base64Str) 0) as Q.
    rewrite Forall_forall in *. intros c Hc. split; [now apply P | now apply Q].
  - assert (C : List.length (Sender.chunkBase64String base64Str)
                = (String.length base64Str + 179) / 180).
    { unfold Sender.chunkBase64String.
      rewrite ChunkFacts.chunkLoop_count by lia. f_equal. lia. }
    split; [exact C |].
    intros i L. unfold Sender.chunkBase64String in *.
    rewrite ChunkFacts.chunkLoop_nth by lia.
    rewrite JsFacts.length_take, JsFacts.length_drop.
    rewrite C in L.
    assert (180 * (S i + 1) <= String.length base64Str + 179).
    { pose proof (Nat.div_mod_eq (String.length base64Str + 179) 180).
      pose proof (Nat.mod_upper_bound (String.length base64Str + 179) 180).
      nia. }
    unfold Sender.CHUNK_SIZE. lia.
Qed.

(** ** A whole transfer *)

Module TransferFacts.
Import Sender Schedule.


Section OneRun.

Variables (env : Env) (key : string) (chunks : list string)
          (cipher : nat -> string) (writes alerts : list string).

Hypothesis encrypts :
  forall i, i < List.length chunks ->
    AES_encrypt (aes env) (nth i chunks EmptyString) (Some key)
      (randomKey env 0 i) = Resolved (cipher i).

Hypothesis writes_complete :
  forall i, i < List.length chunks -> writeCompletes env 0 i = Resolved tt.




End OneRun.


End TransferFacts.



(** The two frames of the sample file, and what the sender shows. *)
Example transfer_of_notes :
  let final :=
    Sender.run Sample.senderEnv (Sample.senderReady "file:///notes.txt")
      (Sender.PressSend :: Sender.Resume 0 :: Schedule.turns 2) in
  map String.length (Sender.transferWrites final) = [392; 156]
  /\ Sender.transferProgress final = Percent 100
  /\ Sender.alerts final = ["File transfer completed successfully."].
Proof. vm_compute. repeat split. Qed.

(** ** A sender that cannot send *)

Module GuardFacts.
Import Sender Schedule.

Lemma step_blocked env st ev :
  tasks st = [] -> blocked st ->
  tasks (step env st ev) = []
  /\ blocked (step env st ev)
  /\ transferWrites (step env st ev) = transferWrites st.
Proof.
  intros T B. destruct ev as [k | n | |]; cbn [step].
  - unfold resume. rewrite T. destruct k; cbn; auto.
  - unfold onNotification. destruct n as [c | m]; [| now repeat split].
    destruct (truthy c) as [v |]; [| now repeat split].
    destruct (Base64.decode v) as [d |]; [| now repeat split].
    destruct (isACK d); now repeat split.
  - unfold sendFileChunks.
    destruct (fileInfo st) eqn:F; [| now repeat split].
    destruct (connectedDevice st) eqn:D;
      [| cbn [negb orb]; now repeat split].
    destruct (transferChar st) eqn:C;
      [| cbn [negb orb]; now repeat split].
    destruct (aesKey st) eqn:K; [| now repeat split].
    destruct B as [B | [B | [B | B]]]; congruence.
  - unfold disconnectDevice. destruct (connectedDevice st);
      [| now repeat split].
    repeat split; [exact T | now left].
Qed.

Lemma update_nth {A : Type} (l : list A) : forall k x y,
  nth_error l k = Some y -> nth_error (update k x l) k = Some x.
Proof.
  induction l as [| z l IH]; intros [| k] x y H; cbn in *;
    try discriminate; [reflexivity | eauto].
Qed.

Lemma resume_returned env k st :
  nth_error (tasks st) k = Some Returned -> resume env k st = st.
Proof. intros T. unfold resume. now rewrite T. Qed.

Lemma returned_for_good env k st :
  nth_error (tasks st) k = Some Returned ->
  forall n, run env st (repeat (Resume k) n) = st.
Proof.
  intros T. induction n as [| n IH]; [reflexivity |].
  cbn [repeat run fold_left step]. rewrite (resume_returned env k st T).
  exact IH.
Qed.

End GuardFacts.

(** X3.  A sender that has no file picked, no device connected, no transfer
    characteristic or no key does not send: whatever is pressed and
    whatever notifications come in, no run of [sendFileChunks] gets past
    its guards and nothing is written to the transfer characteristic. *)
Theorem blocked_sender_writes_nothing (env : Sender.Env) (st : Sender.State)
    (evs : list Sender.Event) :
  Sender.tasks st = [] ->
  Schedule.blocked st ->
  Sender.transferWrites (Sender.run env st evs) = Sender.transferWrites st
  /\ Sender.tasks (Sender.run env st evs) = [].
Proof.
  revert st. induction evs as [| ev evs IH]; intros st T B; [now split |].
  cbn [Sender.run fold_left].
  destruct (GuardFacts.step_blocked env st ev T B) as (T' & B' & W').
  destruct (IH _ T' B') as [W'' T'']. unfold Sender.run in *.
  split; congruence.
Qed.

Lemma blocked_sender_writes_nothing_witness :
  Sender.transferWrites
    (Sender.run Sample.senderEnv (Sample.senderConnected "file:///notes.txt")
       [Sender.PressSend; Sender.Resume 0; Sender.Resume 0; Schedule.ack;
        Sender.Resume 0])
  = Sender.transferWrites (Sample.senderConnected "file:///notes.txt").
Proof.
  refine (proj1 (blocked_sender_writes_nothing Sample.senderEnv
                   (Sample.senderConnected "file:///notes.txt")
                   [Sender.PressSend; Sender.Resume 0; Sender.Resume 0;
                    Schedule.ack; Sender.Resume 0] _ _)).
  - reflexivity.
  - right. right. right. reflexivity.
Defined.

(** X4.  A run that cannot read the file, or cannot encrypt a chunk, ends
    there: the error shown is the message of the failure behind
    [File transfer error: ], the frame of that chunk is not written, the
    acknowledgment flag is left as it was, no completion is announced, and
    the run does nothing more however often it is resumed. *)
Theorem failed_run_ends (env : Sender.Env) (st : Sender.State) (k : nat)
    (message : string) :
  (exists uri m,
     nth_error (Sender.tasks st) k = Some (Sender.Reading uri)
     /\ Sender.fetchBase64 env uri = Rejected m
     /\ message = "File read error: " ++ m)
  \/ (exists chunks i m,
        nth_error (Sender.tasks st) k = Some (Sender.Encrypting chunks i)
        /\ AES_encrypt (Sender.aes env) (nth i chunks "") (Sender.aesKey st)
             (Sender.randomKey env k i) = Rejected m
        /\ message = "Encryption error: " ++ m) ->
  Sender.error (Sender.resume env k st)
  = Some ("File transfer error: " ++ message)
  /\ Sender.transferWrites (Sender.resume env k st) = Sender.transferWrites st
  /\ Sender.ackReceived (Sender.resume env k st) = Sender.ackReceived st
  /\ Sender.alerts (Sender.resume env k st) = Sender.alerts st
  /\ nth_error (Sender.tasks (Sender.resume env k st)) k
     = Some Sender.Returned
  /\ forall n,
       Sender.run env (Sender.resume env k st) (repeat (Sender.Resume k) n)
       = Sender.resume env k st.
Proof.
  intros H.
  assert (R : exists t, nth_error (Sender.tasks st) k = Some t
                        /\ Sender.resume env k st
                           = Sender.transferFailed k message st).
  { destruct H as [(uri & m & T & F & ->) | (chunks & i & m & T & F & ->)].
    - exists (Sender.Reading uri). split; [exact T |].
      unfold Sender.resume, Sender.readFileAsBase64. now rewrite T, F.
    - exists (Sender.Encrypting chunks i). split; [exact T |].
      unfold Sender.resume, Sender.encryptChunk. now rewrite T, F. }
  destruct R as (t & T & ->).
  assert (Tk : nth_error (Sender.tasks (Sender.transferFailed k message st)) k
               = Some Sender.Returned)
    by (cbn; exact (GuardFacts.update_nth _ _ _ _ T)).
  repeat split; try reflexivity; [exact Tk |].
  apply GuardFacts.returned_for_good, Tk.
Qed.

Lemma failed_run_ends_witness :
  Sender.error
    (Sender.resume Sample.senderEnv 0
       (Sender.sendFileChunks (Sample.senderReady "file:///lost.txt")))
  = Some ("File transfer error: " ++ "File read error: no such file").
Proof.
  refine (proj1 (failed_run_ends Sample.senderEnv
                   (Sender.sendFileChunks (Sample.senderReady "file:///lost.txt"))
                   0 "File read error: no such file" _)).
  left. exists "file:///lost.txt", "no such file".
  repeat split; vm_compute; reflexivity.
Defined.

(** ** Decrypting and saving *)

Module IntakeFacts.
Import Receiver.

Lemma nth_error_snoc {A : Type} (l : list A) (x : A) :
  nth_error (l ++ [x]) (List.length l) = Some x.
Proof. induction l as [| y l IH]; [reflexivity | exact IH]. Qed.

(** A characteristic value that brings a text [decryptChunk] decrypts: the
    call is started, and its continuation pushes the chunk. *)
Lemma notified_chunk env (a : ascii) (s : string) st chunk :
  decryptChunk (aes env) (aesKey st) (String a s) = Resolved chunk ->
  let st1 :=
    onNotification env (Resolved (Some (Base64.encode (String a s)))) st in
  let st2 := resume env (List.length (tasks st)) st1 in
  receivedChunks st2 = (receivedChunks st ++ [chunk])%list
  /\ transferWrites st2 = (transferWrites st ++ [Base64.encode "ACK"])%list.
Proof.
  intros D. cbv zeta. unfold onNotification.
  rewrite Base64Facts.encode_truthy, Base64Facts.decode_encode.
  unfold processReceivedChunk, decryptReceived.
  rewrite Base64Facts.narrow_units, D.
  unfold resume. cbn [tasks setTasks]. rewrite nth_error_snoc.
  split; reflexivity.
Qed.

Lemma bytes_back (l : list byte) :
  Js.toUint8Array (Js.units (string_of_list_byte l)) = l.
Proof.
  induction l as [| b l IH]; [reflexivity |].
  unfold Js.toUint8Array in *.
  change (string_of_list_byte (b :: l))
    with (String (ascii_of_byte b) (string_of_list_byte l)).
  cbn [Js.units map]. rewrite IH.
  f_equal. destruct b; reflexivity.
Qed.

(** What a side reads of the handshake value of the other. *)
Lemma handshake_value_read (kp : KeyPair) :
  0 < List.length (publicKey kp) ->
  truthy (Some (Sample.handshakeValue kp)) = Some (Sample.handshakeValue kp)
  /\ Base64.decode (Sample.handshakeValue kp)
     = Resolved (Js.units (string_of_list_byte (publicKey kp))).
Proof.
  intros L. unfold Sample.handshakeValue.
  destruct (publicKey kp) as [| b l]; [cbn in L; lia |].
  cbn [string_of_list_byte].
  split; [apply Base64Facts.encode_truthy | apply Base64Facts.decode_encode].
Qed.

End IntakeFacts.

(** X6.  What [decryptChunk] decrypts.  A text made by encoding, in base64,
    an IV of exactly 12 characters followed by the output of [AES.encrypt]
    under that IV and the receiver's key is decrypted to the text that was
    encrypted, by any cipher package that gives back under the same key and
    IV what it encrypted; brought by a characteristic value (encoded once
    more), the chunk is appended to the buffer when the call of
    [processReceivedChunk] that the notification starts is resumed. *)
Theorem twelve_character_iv_round_trip (env : Receiver.Env)
    (st : Receiver.State) (key iv text cipher : string) :
  lawful (Receiver.aes env) ->
  Receiver.aesKey st = Some key ->
  String.length iv = 12 ->
  AES_encrypt (Receiver.aes env) text (Some key) iv = Resolved cipher ->
  Receiver.decryptChunk (Receiver.aes env) (Some key)
    (Base64.encode (iv ++ cipher)) = Resolved text
  /\ Receiver.receivedChunks
       (Receiver.resume env (List.length (Receiver.tasks st))
          (Receiver.onNotification env
             (Resolved (Some (Base64.encode (Base64.encode (iv ++ cipher)))))
             st))
     = (Receiver.receivedChunks st ++ [text])%list.
Proof.
  intros Law K L E.
  destruct iv as [| a iv]; [discriminate |].
  assert (D : Receiver.decryptChunk (Receiver.aes env) (Some key)
                (Base64.encode (String a iv ++ cipher)) = Resolved text).
  { unfold Receiver.decryptChunk. cbn [append].
    rewrite Base64Facts.decode_encode, Base64Facts.narrow_units.
    change (String a (iv ++ cipher)) with (String a iv ++ cipher).
    unfold Js.slice.
    change (Js.drop 0 (String a iv ++ cipher)) with (String a iv ++ cipher).
    change (12 - 0) with 12. rewrite <- L.
    rewrite JsFacts.take_append, JsFacts.drop_append.
    now rewrite (Law _ _ _ _ E). }
  split; [exact D |].
  destruct (Base64Facts.encode_cons a (iv ++ cipher)) as (b & s & N).
  cbn [append] in D |- *. rewrite N in D |- *. rewrite <- K in D.
  apply (IntakeFacts.notified_chunk env b s st text D).
Qed.

Lemma twelve_character_iv_round_trip_witness :
  Receiver.decryptChunk (Receiver.aes Sample.receiverEnv) (Some Sample.key)
    (Base64.encode ("0123456789ab" ++ (Sample.key ++ "0123456789ab" ++ "QUJD")))
  = Resolved "QUJD".
Proof.
  refine (proj1 (twelve_character_iv_round_trip Sample.receiverEnv
                   Sample.receiverReady Sample.key "0123456789ab" "QUJD"
                   (Sample.key ++ "0123456789ab" ++ "QUJD") _ _ _ _)).
  - exact ReceiverStartFacts.Sealed_lawful.
  - vm_compute. reflexivity.
  - reflexivity.
  - reflexivity.
Defined.

(** X7.  Saving gives back the text the sender cut up.  When the buffer
    holds the chunks [chunkBase64String] makes of a text and the completion
    test has succeeded, [assembleAndSaveFile] calls [RNFS.writeFile] with
    exactly that text, always for [received_file.txt] in the documents
    directory, and keeps the buffer as it is.  If the write succeeds the
    file name is shown and the alert raised; if it fails the error is
    [File save error: ...] and no file name is set. *)
Theorem saved_file_is_the_chunked_text (env : Receiver.Env)
    (st : Receiver.State) (k : nat) (base64Str : string) :
  Receiver.receivedChunks st = Sender.chunkBase64String base64Str ->
  nth_error (Receiver.tasks st) k = Some Receiver.Acknowledging ->
  let filePath :=
    (Receiver.DocumentDirectoryPath env ++ "/received_file.txt")%string in
  let saving := Receiver.assembleAndSaveFile env k st in
  Receiver.files saving = (Receiver.files st ++ [(filePath, base64Str)])%list
  /\ Receiver.receivedChunks saving = Receiver.receivedChunks st
  /\ Receiver.receivedFileName saving = Receiver.receivedFileName st
  /\ match Receiver.saveCompletes env k with
     | Resolved _ =>
         Receiver.receivedFileName (Receiver.resume env k saving)
         = Some "received_file.txt"
         /\ Receiver.alerts (Receiver.resume env k saving)
            = (Receiver.alerts st ++ [("File saved to " ++ filePath)%string])%list
         /\ Receiver.error (Receiver.resume env k saving) = Receiver.error st
     | Rejected m =>
         Receiver.receivedFileName (Receiver.resume env k saving)
         = Receiver.receivedFileName st
         /\ Receiver.alerts (Receiver.resume env k saving)
            = Receiver.alerts st
         /\ Receiver.error (Receiver.resume env k saving)
            = Some ("File save error: " ++ m)
     end.
Proof.
  intros R T filePath saving.
  assert (Ts : nth_error (Receiver.tasks saving) k
               = Some (Receiver.Saving filePath)).
  { subst saving. unfold Receiver.assembleAndSaveFile. cbn.
    exact (GuardFacts.update_nth _ _ _ _ T). }
  split; [| split; [reflexivity | split; [reflexivity |]]].
  - subst saving. unfold Receiver.assembleAndSaveFile. cbn.
    now rewrite R, PipelineFacts.chunkBase64String_join.
  - unfold Receiver.resume. rewrite Ts.
    destruct (Receiver.saveCompletes env k); now repeat split.
Qed.

Lemma saved_file_is_the_chunked_text_witness :
  Receiver.files
    (Receiver.assembleAndSaveFile (Session.receiverEnv Sample.plainEnv) 1
       Intake.buffered)
  = (Receiver.files Intake.buffered
     ++ [("/data/files/received_file.txt"%string, Sample.notes)])%list.
Proof.
  refine (proj1 (saved_file_is_the_chunked_text
                   (Session.receiverEnv Sample.plainEnv)
                   Intake.buffered 1 Sample.notes _ _)).
  - vm_compute. reflexivity.
  - vm_compute. reflexivity.
Defined.

(** X8.  The handshake agrees on the shared secret, and on nothing more.
    When the receiver reads the value the sender wrote to the handshake
    characteristic and the sender reads the value the receiver wrote, both
    writes succeed, and the curve gives both sides the same shared secret,
    then each side has handed over its own public key, both store that
    secret, and both leave [deriveAESKey] through its [catch]: the AES key
    of either side is what it was before, and both show
    [AES key derivation error: ...]. *)
Theorem handshake_agrees_on_the_secret_only (nacl : NaclLib)
    (engine : Imports.Engine) (senderPair receiverPair : KeyPair)
    (secret : list byte) (closure : option string)
    (cancelled : outcome unit)
    (sender : Sender.State) (receiver : Receiver.State) :
  0 < List.length (publicKey senderPair) ->
  0 < List.length (publicKey receiverPair) ->
  box_before nacl (publicKey senderPair) (secretKey receiverPair)
  = Resolved secret ->
  box_before nacl (publicKey receiverPair) (secretKey senderPair)
  = Resolved secret ->
  let receiver' :=
    Receiver.performKeyExchange nacl engine
      {| Receiver.fresh := receiverPair;
         Receiver.peer := Resolved (Some (Sample.handshakeValue senderPair));
         Receiver.written := Resolved tt |} receiver in
  let sender' :=
    fst (Sender.performKeyExchange nacl engine
           {| Sender.fresh := senderPair;
              Sender.written := Resolved tt;
              Sender.peer :=
                Resolved
                  (Some (last (Receiver.handshakeWrites receiver') ""));
              Sender.cancelled := cancelled |} closure sender) in
  let message :=
    ("AES key derivation error: "
     ++ match Imports.Buffer_hex engine with
        | Some _ => Imports.notAFunction engine
        | None => Imports.notDefined engine
        end)%string in
  Sender.handshakeWrites sender'
  = (Sender.handshakeWrites sender ++ [Sample.handshakeValue senderPair])%list
  /\ Receiver.handshakeWrites receiver'
     = (Receiver.handshakeWrites receiver
        ++ [Sample.handshakeValue receiverPair])%list
  /\ Sender.sharedSecret sender' = Some secret
  /\ Receiver.sharedSecret receiver' = Some secret
  /\ Sender.aesKey sender' = Sender.aesKey sender
  /\ Receiver.aesKey receiver' = Receiver.aesKey receiver
  /\ Sender.error sender' = Some message
  /\ Receiver.error receiver' = Some message.
Proof.
  intros Ls Lr Br Bs.
  destruct (IntakeFacts.handshake_value_read senderPair Ls) as [Ts Ds].
  destruct (IntakeFacts.handshake_value_read receiverPair Lr) as [Tr Dr].
  cbv zeta.
  assert (R : Receiver.performKeyExchange nacl engine
                {| Receiver.fresh := receiverPair;
                   Receiver.peer :=
                     Resolved (Some (Sample.handshakeValue senderPair));
                   Receiver.written := Resolved tt |} receiver
              = Receiver.deriveAESKey engine secret
                  (Receiver.setKeys (Some receiverPair) (Some secret)
                     (Receiver.aesKey receiver)
                     (Receiver.writeWithResponse
                        (Sample.handshakeValue receiverPair)
                        (Receiver.setKeys (Some receiverPair)
                           (Receiver.sharedSecret receiver)
                           (Receiver.aesKey receiver) receiver)))).
  { unfold Receiver.performKeyExchange.
    cbn [Receiver.peer Receiver.fresh Receiver.written].
    rewrite Ts, Ds, IntakeFacts.bytes_back, Br. reflexivity. }
  rewrite R, StartFacts.receiver_deriveAESKey.
  cbn [Receiver.handshakeWrites Receiver.setKeys Receiver.writeWithResponse
       Receiver.setError].
  rewrite last_last.
  unfold Sender.performKeyExchange.
  cbn [Sender.peer Sender.fresh Sender.written].
  rewrite Tr, Dr, IntakeFacts.bytes_back, Bs.
  rewrite StartFacts.sender_deriveAESKey.
  cbn. repeat split.
Qed.

Lemma handshake_agrees_on_the_secret_only_witness :
  Sender.handshakeWrites
    (fst (Sender.performKeyExchange Sample.nacl Sample.engine
            {| Sender.fresh := Sample.senderPair;
               Sender.written := Resolved tt;
               Sender.peer :=
                 Resolved
                   (Some
                      (last
                         (Receiver.handshakeWrites
                            (Receiver.performKeyExchange Sample.nacl
                               Sample.engine
                               {| Receiver.fresh := Sample.receiverPair;
                                  Receiver.peer :=
                                    Resolved
                                      (Some (Sample.handshakeValue
                                               Sample.senderPair));
                                  Receiver.written := Resolved tt |}
                               Receiver.initial)) ""));
               Sender.cancelled := Resolved tt |} None Sender.initial))
  = (Sender.handshakeWrites Sender.initial
     ++ [Sample.handshakeValue Sample.senderPair])%list.
Proof.
  refine (proj1 (handshake_agrees_on_the_secret_only Sample.nacl
                   Sample.engine Sample.senderPair Sample.receiverPair
                   Sample.secret None (Resolved tt)
                   Sender.initial Receiver.initial _ _ _ _)).
  - vm_compute. lia.
  - vm_compute. lia.
  - vm_compute. reflexivity.
  - vm_compute. reflexivity.
Defined.

(** X9.  A peer key that cannot be read.  When the read of the handshake
    characteristic fails, gives nothing, or gives text with a character
    outside the base64 alphabet, both applications report a key exchange
    error and keep the shared secret and the AES key they had, next to the
    new key pair; the receiver has then handed nothing to the handshake
    characteristic, the sender has already handed over its public key. *)
Theorem unreadable_peer_key (nacl : NaclLib) (engine : Imports.Engine)
    (sh : Sender.Handshake) (rh : Receiver.Handshake)
    (closure : option string)
    (sender : Sender.State) (receiver : Receiver.State) :
  Intake.unreadable (Sender.peer sh) = true ->
  Intake.unreadable (Receiver.peer rh) = true ->
  let sender' :=
    fst (Sender.performKeyExchange nacl engine sh closure sender) in
  let receiver' := Receiver.performKeyExchange nacl engine rh receiver in
  ((exists m, Sender.error sender' = Some ("Key exchange error: " ++ m))
   /\ Sender.ephemeralKeyPair sender' = Some (Sender.fresh sh)
   /\ Sender.sharedSecret sender' = Sender.sharedSecret sender
   /\ Sender.aesKey sender' = Sender.aesKey sender
   /\ Sender.handshakeWrites sender'
      = (Sender.handshakeWrites sender
         ++ [Base64.encode
               (string_of_list_byte (publicKey (Sender.fresh sh)))])%list)
  /\ ((exists m, Receiver.error receiver' = Some ("Key exchange error: " ++ m))
      /\ Receiver.ephemeralKeyPair receiver' = Some (Receiver.fresh rh)
      /\ Receiver.sharedSecret receiver' = Receiver.sharedSecret receiver
      /\ Receiver.aesKey receiver' = Receiver.aesKey receiver
      /\ Receiver.handshakeWrites receiver'
         = Receiver.handshakeWrites receiver).
Proof.
  intros Us Ur. cbv zeta. split.
  - assert (F : forall m st,
              st = Sender.writeWithResponse
                     (Base64.encode
                        (string_of_list_byte (publicKey (Sender.fresh sh))))
                     (Sender.setKeys (Some (Sender.fresh sh))
                        (Sender.sharedSecret sender) (Sender.aesKey sender)
                        sender) ->
              let st' := fst (Sender.keyExchangeFailed sh closure m st) in
              (exists m, Sender.error st' = Some ("Key exchange error: " ++ m))
              /\ Sender.ephemeralKeyPair st' = Some (Sender.fresh sh)
              /\ Sender.sharedSecret st' = Sender.sharedSecret sender
              /\ Sender.aesKey st' = Sender.aesKey sender
              /\ Sender.handshakeWrites st'
                 = (Sender.handshakeWrites sender
                    ++ [Base64.encode
                          (string_of_list_byte
                             (publicKey (Sender.fresh sh)))])%list).
    { intros m st ->. unfold Sender.keyExchangeFailed.
      destruct closure; [destruct (Sender.cancelled sh) |];
        cbn; repeat split; eauto. }
    unfold Sender.performKeyExchange, Intake.unreadable in *.
    destruct (Sender.written sh); [| now apply F].
    destruct (Sender.peer sh) as [read | e1]; [| now apply F].
    destruct (truthy read) as [v |]; [| now apply F].
    destruct (Base64.decode v) as [d | e2]; [discriminate | now apply F].
  - unfold Receiver.performKeyExchange, Intake.unreadable in *.
    destruct (Receiver.peer rh) as [read | e1].
    + destruct (truthy read) as [v |].
      * destruct (Base64.decode v) as [d | e2]; [discriminate |].
        cbn. repeat split; eauto.
      * cbn. repeat split; eauto.
    + cbn. repeat split; eauto.
Qed.

Lemma unreadable_peer_key_witness :
  Receiver.handshakeWrites
    (Receiver.performKeyExchange Sample.nacl Sample.engine
       {| Receiver.fresh := Sample.receiverPair;
          Receiver.peer := Resolved (Some "not base64");
          Receiver.written := Resolved tt |} Receiver.initial)
  = Receiver.handshakeWrites Receiver.initial.
Proof.
  refine (proj2 (proj2 (proj2 (proj2 (proj2
            (unreadable_peer_key Sample.nacl Sample.engine
               {| Sender.fresh := Sample.senderPair;
                  Sender.written := Resolved tt;
                  Sender.peer := Resolved (Some "not base64");
                  Sender.cancelled := Resolved tt |}
               {| Receiver.fresh := Sample.receiverPair;
                  Receiver.peer := Resolved (Some "not base64");
                  Receiver.written := Resolved tt |}
               None Sender.initial Receiver.initial _ _)))))).
  - vm_compute. reflexivity.
  - vm_compute. reflexivity.
Defined.

(** Text of the wrong length is read all the same: the receiver then hands
    over its public key. *)
Example text_of_any_length_is_read :
  Intake.unreadable (Resolved (Some "notbase64")) = false
  /\ Receiver.handshakeWrites
       (Receiver.performKeyExchange Sample.nacl Sample.engine
          {| Receiver.fresh := Sample.receiverPair;
             Receiver.peer := Resolved (Some "notbase64");
             Receiver.written := Resolved tt |} Receiver.initial)
     = [Sample.handshakeValue Sample.receiverPair].
Proof. vm_compute. split; reflexivity. Qed.

(** ** Both applications at the transfer characteristic *)

(** X10.  The two applications keep in step.  With both at the ends of the
    transfer characteristic, nothing written yet, and values delivered in
    order or lost: at every moment the receiver has buffered no more chunks
    than it has acknowledged, has acknowledged no more frames than have
    reached it or were lost, and the sender has written at most one frame
    more than acknowledgments have left the characteristic; when the
    sender's flag is set, every frame written has been delivered or lost
    and every one delivered has been acknowledged. *)
Theorem sender_is_at_most_one_frame_ahead (env : Session.Env)
    (st : Session.State) (evs : list Session.Event) :
  Session.fresh st ->
  Receiver.receivedChunks (Session.receiver st) = [] ->
  let now := Session.run env st evs in
  let written := List.length (Sender.transferWrites (Session.sender now)) in
  let acknowledged :=
    List.length (Receiver.transferWrites (Session.receiver now)) in
  List.length (Receiver.receivedChunks (Session.receiver now)) <= acknowledged
  /\ Session.acksTaken now <= acknowledged
  /\ acknowledged <= Session.framesTaken now
  /\ Session.framesTaken now <= written
  /\ written <= 1 + Session.acksTaken now
  /\ (Sender.ackReceived (Session.sender now) = true ->
      written = Session.acksTaken now).
Proof.
  intros F R now written acknowledged.
  pose proof (SessionFacts.run_inStep env evs st
                (SessionFacts.fresh_inStep st F)) as (A & B & C & D).
  pose proof (SessionFacts.run_buffer env evs st) as L.
  rewrite R in L. specialize (L (Nat.le_0_l _)).
  fold now in A, B, C, D, L. fold written in A, D.
  fold acknowledged in B, C, L.
  repeat split; try lia.
  intros T. rewrite T in A. lia.
Qed.

Lemma sender_is_at_most_one_frame_ahead_witness :
  List.length
    (Receiver.receivedChunks
       (Session.receiver
          (Session.run Sample.plainEnv Session.initial
             (Sample.start ++ Sample.transfer))))
  <= List.length
       (Receiver.transferWrites
          (Session.receiver
             (Session.run Sample.plainEnv Session.initial
                (Sample.start ++ Sample.transfer)))).
Proof.
  refine (proj1 (sender_is_at_most_one_frame_ahead Sample.plainEnv
                   Session.initial (Sample.start ++ Sample.transfer) _ _)).
  - vm_compute. repeat split.
  - vm_compute. reflexivity.
Defined.

(** The two applications from their start, each connected to the other,
    the two-chunk file picked and Send pressed: the sender stops at its
    guard, and nothing is written, delivered or buffered. *)
Example both_ends_from_the_start :
  let now :=
    Session.run Sample.plainEnv Session.initial
      (Sample.start ++ Sample.transfer) in
  (List.length (Sender.transferWrites (Session.sender now)),
   Session.framesTaken now,
   List.length (Receiver.transferWrites (Session.receiver now)),
   Session.acksTaken now,
   List.length (Receiver.receivedChunks (Session.receiver now)))
  = (0, 0, 0, 0, 0)
  /\ Sender.error (Session.sender now)
     = Some "Encryption key not established".
Proof. vm_compute. repeat split. Qed.

(** The same exchange between two states that hold a key, which no
    handshake of the applications gives: two frames written, delivered and
    acknowledged, two chunks buffered, and the sender has announced the
    completion. *)
Example both_ends_of_the_sample_run :
  let now := Session.run Sample.plainEnv Sample.session Sample.transfer in
  (List.length (Sender.transferWrites (Session.sender now)),
   Session.framesTaken now,
   List.length (Receiver.transferWrites (Session.receiver now)),
   Session.acksTaken now,
   List.length (Receiver.receivedChunks (Session.receiver now)))
  = (2, 2, 2, 2, 2)
  /\ Sender.ackReceived (Session.sender now) = true
  /\ Sender.alerts (Session.sender now)
     = ["File transfer completed successfully."].
Proof. vm_compute. repeat split. Qed.

(** ** The scan and the search for the characteristics *)

Module ScanFacts.
Import Scan.

Lemma permission_of_platform os st st' :
  fst (requestPermissions os st) = fst (requestPermissions os st').
Proof.
  destruct os as [[granted | m] |]; cbn; [| reflexivity | reflexivity].
  now destruct (forallb _ granted).
Qed.

Lemma startScan_granted os st :
  fst (requestPermissions os st) = true ->
  startScan os st
  = setScanning true "Scanning..." (setDevices [] (setError None st)).
Proof.
  intros G. unfold startScan.
  rewrite (permission_of_platform os st (setError None st)) in G.
  destruct os as [[granted | m] |]; cbn in *; [| discriminate | reflexivity].
  now destruct (forallb _ granted).
Qed.

Lemma find_id (device : Device) (l : list Device) :
  match find (fun d => String.eqb (id d) (id device)) l with
  | Some d => In d l /\ id d = id device
  | None => ~ In (id device) (map id l)
  end.
Proof.
  induction l as [| x l IH]; cbn; [tauto |].
  destruct (String.eqb (id x) (id device)) eqn:E.
  - apply String.eqb_eq in E. auto.
  - apply String.eqb_neq in E.
    destruct (find _ l) as [d |]; [tauto |].
    intros [H | H]; [congruence | tauto].
Qed.

Lemma NoDup_snoc (l : list string) (x : string) :
  NoDup l -> ~ In x l -> NoDup (l ++ [x]).
Proof.
  intros N I. apply NoDup_app; [exact N | repeat constructor; intros [] | ].
  intros a Ha [<- | []]. tauto.
Qed.

(** What one report does to the list. *)
Lemma addDevice_spec (device : Device) (l : list Device) :
  NoDup (map id l) ->
  NoDup (map id (addDevice device l))
  /\ (forall d, In d (addDevice device l) -> In d l \/ d = device)
  /\ (forall d, In d l -> In d (addDevice device l))
  /\ (exists first, In first (addDevice device l) /\ id first = id device).
Proof.
  intros N. unfold addDevice. pose proof (find_id device l) as F.
  destruct (find _ l) as [d |].
  - destruct F as [I E]. repeat split; eauto.
  - repeat split.
    + rewrite map_app. now apply NoDup_snoc.
    + intros d I. apply in_app_or in I. destruct I as [I | [<- | []]]; auto.
    + intros d I. apply in_or_app. tauto.
    + exists device. split; [apply in_or_app; cbn; tauto | reflexivity].
Qed.

Lemma run_reports (evs : list Event) : forall st,
  forallb (fun ev => negb (isPressScan ev)) evs = true ->
  NoDup (map id (devices st)) ->
  NoDup (map id (devices (run st evs)))
  /\ (forall d, In d (devices (run st evs)) ->
        In d (devices st) \/ reports evs d)
  /\ (forall d, In d (devices st) \/ reports evs d ->
        exists first, In first (devices (run st evs)) /\ id first = id d)
  /\ (forall d, In d (devices st) -> In d (devices (run st evs))).
Proof.
  induction evs as [| ev evs IH]; intros st P N.
  - cbn. repeat split; [exact N | tauto | | tauto].
    intros d [I | [[] _]]. eauto.
  - cbn [forallb] in P. apply andb_true_iff in P. destruct P as [P1 P].
    cbn [run fold_left].
    assert (S1 : NoDup (map id (devices (step st ev)))
                 /\ (forall d, In d (devices (step st ev)) ->
                       In d (devices st) \/ reports [ev] d)
                 /\ (forall d, In d (devices st) \/ reports [ev] d ->
                       exists first, In first (devices (step st ev))
                                     /\ id first = id d)
                 /\ (forall d, In d (devices st) ->
                       In d (devices (step st ev)))).
    { destruct ev as [os | err device |]; [discriminate | |].
      - cbn [step]. unfold onScan.
        destruct err as [m |].
        + cbn. repeat split; [exact N | tauto | | tauto].
          intros d [I | [[E | []] _]]; [eauto | discriminate].
        + destruct device as [device |].
          * destruct (truthy (name device)) eqn:T.
            -- cbn [devices setDevices].
               destruct (addDevice_spec device (devices st) N)
                 as (N' & S' & K' & C').
               repeat split; [exact N' | | | exact K'].
               ++ intros d I. destruct (S' d I) as [H | ->]; [tauto |].
                  right. split; [cbn; tauto | congruence].
               ++ intros d [I | [[E | []] _]]; [eauto |].
                  injection E as <-. exact C'.
            -- repeat split; [exact N | tauto | | tauto].
               intros d [I | [[E | []] U]]; [eauto |].
               injection E as <-. congruence.
          * repeat split; [exact N | tauto | | tauto].
            intros d [I | [[E | []] _]]; [eauto | discriminate].
      - cbn. repeat split; [exact N | tauto | | tauto].
        intros d [I | [[E | []] _]]; [eauto | discriminate]. }
    destruct S1 as (N1 & A1 & B1 & M1).
    destruct (IH (step st ev) P N1) as (N2 & A2 & B2 & M2).
    unfold run in *. repeat split; [exact N2 | | | auto].
    + intros d I. destruct (A2 d I) as [H | [H U]].
      * destruct (A1 d H) as [H' | [H' U']]; [tauto |].
        right. split; [| exact U'].
        destruct H' as [H' | []]. left. exact H'.
      * right. split; [now right | exact U].
    + intros d [I | [[E | I] U]].
      * destruct (B1 d (or_introl I)) as (f & If & Ef).
        destruct (B2 f (or_introl If)) as (g & Ig & Eg).
        exists g. split; [exact Ig | congruence].
      * destruct (B1 d (or_intror (conj (or_introl E) U)))
          as (f & If & Ef).
        destruct (B2 f (or_introl If)) as (g & Ig & Eg).
        exists g. split; [exact Ig | congruence].
      * apply B2. right. now split.
Qed.

End ScanFacts.

(** X11.  The list of devices of a scan.  After [startScan] with the
    permissions granted, whatever the scan then reports and whether or not
    the timer has run out: the list holds no two devices with one
    identifier; every device listed was reported, without an error and with
    a name; for every such report the list holds a device with that
    identifier; and it is the device of the first report with the
    identifier that is listed, a later report does not replace it. *)
Theorem scan_lists_each_named_device_once (os : Scan.Platform)
    (st : Scan.State) (evs : list Scan.Event) :
  fst (Scan.requestPermissions os st) = true ->
  forallb (fun ev => negb (Scan.isPressScan ev)) evs = true ->
  let final := Scan.run (Scan.startScan os st) evs in
  NoDup (map Scan.id (Scan.devices final))
  /\ (forall d, In d (Scan.devices final) -> Scan.reports evs d)
  /\ (forall d, Scan.reports evs d ->
        exists first, In first (Scan.devices final)
                      /\ Scan.id first = Scan.id d)
  /\ (forall before d after,
        evs = (before ++ Scan.Report None (Some d) :: after)%list ->
        truthy (Scan.name d) <> None ->
        (forall earlier, Scan.reports before earlier ->
           Scan.id earlier <> Scan.id d) ->
        In d (Scan.devices final)).
Proof.
  intros G P final.
  assert (E : Scan.devices (Scan.startScan os st) = []).
  { now rewrite (ScanFacts.startScan_granted os st G). }
  assert (N0 : NoDup (map Scan.id (Scan.devices (Scan.startScan os st)))).
  { rewrite E. constructor. }
  destruct (ScanFacts.run_reports evs (Scan.startScan os st) P N0)
    as (N & A & B & _).
  fold final in N, A, B. split; [exact N |]. split; [| split].
  - intros d I. destruct (A d I) as [H | H]; [| exact H].
    rewrite E in H. destruct H.
  - intros d R. apply B. now right.
  - intros before d after -> T F. subst final.
    rewrite forallb_app in P. apply andb_true_iff in P.
    destruct P as [P1 P2]. cbn [forallb] in P2.
    apply andb_true_iff in P2. destruct P2 as [_ P2].
    unfold Scan.run. rewrite fold_left_app. cbn [fold_left Scan.step].
    destruct (ScanFacts.run_reports before (Scan.startScan os st) P1 N0)
      as (N1 & A1 & _ & _).
    unfold Scan.run in N1, A1.
    set (mid := fold_left Scan.step before (Scan.startScan os st)) in *.
    assert (I : In d (Scan.devices (Scan.onScan None (Some d) mid))).
    { unfold Scan.onScan. destruct (truthy (Scan.name d)); [| congruence].
      cbn [Scan.devices Scan.setDevices]. unfold Scan.addDevice.
      pose proof (ScanFacts.find_id d (Scan.devices mid)) as Fd.
      destruct (find _ (Scan.devices mid)) as [x |].
      - destruct Fd as [Ix Ex]. exfalso.
        destruct (A1 x Ix) as [H | H].
        + rewrite E in H. destruct H.
        + exact (F x H Ex).
      - apply in_or_app. cbn. tauto. }
    assert (N2 : NoDup (map Scan.id
                          (Scan.devices (Scan.onScan None (Some d) mid)))).
    { destruct (ScanFacts.run_reports [Scan.Report None (Some d)] mid
                  eq_refl N1) as (N2 & _). exact N2. }
    destruct (ScanFacts.run_reports after _ P2 N2) as (_ & _ & _ & M).
    apply M, I.
Qed.

Lemma scan_lists_each_named_device_once_witness :
  NoDup
    (map Scan.id
       (Scan.devices
          (Scan.run
             (Scan.startScan
                (Scan.Android (Resolved ["granted"; "granted"; "granted";
                                         "granted"]))
                Scan.initial)
             [Scan.Report None
                (Some {| Scan.id := "AA:01"; Scan.name := Some "Receiver" |});
              Scan.Report None
                (Some {| Scan.id := "AA:02"; Scan.name := None |});
              Scan.Timeout;
              Scan.Report None
                (Some {| Scan.id := "AA:01"; Scan.name := Some "Renamed" |})]))).
Proof.
  refine (proj1 (scan_lists_each_named_device_once
                   (Scan.Android (Resolved ["granted"; "granted"; "granted";
                                            "granted"]))
                   Scan.initial
                   [Scan.Report None
                      (Some {| Scan.id := "AA:01";
                               Scan.name := Some "Receiver" |});
                    Scan.Report None
                      (Some {| Scan.id := "AA:02"; Scan.name := None |});
                    Scan.Timeout;
                    Scan.Report None
                      (Some {| Scan.id := "AA:01";
                               Scan.name := Some "Renamed" |})] _ _)).
  - reflexivity.
  - reflexivity.
Defined.

Example scan_keeps_the_first_report :
  Scan.devices
    (Scan.run
       (Scan.startScan Scan.Other Scan.initial)
       [Scan.Report None
          (Some {| Scan.id := "AA:01"; Scan.name := Some "Receiver" |});
        Scan.Report None
          (Some {| Scan.id := "AA:02"; Scan.name := Some "" |});
        Scan.Report (Some "powered off") None;
        Scan.Report None
          (Some {| Scan.id := "AA:01"; Scan.name := Some "Renamed" |})])
  = [{| Scan.id := "AA:01"; Scan.name := Some "Receiver" |}].
Proof. reflexivity. Qed.

Module DiscoveryFacts.
Import Discovery.

Lemma isHandshake_uuid char :
  isHandshake char = true -> toLowerCase (uuid char) = HANDSHAKE_CHAR_UUID.
Proof. unfold isHandshake. intros E. now apply String.eqb_eq in E. Qed.

Lemma isTransfer_uuid char :
  isTransfer char = true -> toLowerCase (uuid char) = TRANSFER_CHAR_UUID.
Proof. unfold isTransfer. intros E. now apply String.eqb_eq in E. Qed.

Lemma one_role char : isHandshake char = true -> isTransfer char = false.
Proof.
  intros H. apply isHandshake_uuid in H. unfold isTransfer. rewrite H.
  reflexivity.
Qed.

(** The inner loop over the characteristics of one service. *)
Lemma inner_loop (chars : list Characteristic) : forall found,
  let found' := fold_left inner chars found in
  (forall h, handshakeCharacteristic found' = Some h ->
     handshakeCharacteristic found = Some h
     \/ In h chars /\ isHandshake h = true)
  /\ (forall t, transferCharacteristic found' = Some t ->
        transferCharacteristic found = Some t
        \/ In t chars /\ isTransfer t = true)
  /\ (handshakeCharacteristic found <> None ->
      handshakeCharacteristic found' <> None)
  /\ (transferCharacteristic found <> None ->
      transferCharacteristic found' <> None)
  /\ (forall c, In c chars -> isHandshake c = true ->
        handshakeCharacteristic found' <> None)
  /\ (forall c, In c chars -> isTransfer c = true ->
        transferCharacteristic found' <> None).
Proof.
  induction chars as [| char chars IH]; intros found.
  - cbn. repeat split; tauto.
  - cbv zeta. cbn [fold_left].
    destruct (IH (inner found char)) as (A & B & C & D & E & F).
    set (found' := fold_left inner chars (inner found char)) in *.
    assert (Hh : isHandshake char = true ->
                 handshakeCharacteristic (inner found char) = Some char
                 /\ transferCharacteristic (inner found char)
                    = transferCharacteristic found).
    { intros H. unfold inner. now rewrite H. }
    assert (Ht : isHandshake char = false -> isTransfer char = true ->
                 handshakeCharacteristic (inner found char)
                 = handshakeCharacteristic found
                 /\ transferCharacteristic (inner found char) = Some char).
    { intros H T. unfold inner. now rewrite H, T. }
    assert (Hn : isHandshake char = false -> isTransfer char = false ->
                 inner found char = found).
    { intros H T. unfold inner. now rewrite H, T. }
    destruct (isHandshake char) eqn:H.
    + destruct (Hh eq_refl) as [H1 H2]. pose proof (one_role char H) as T.
      repeat split.
      * intros h I. destruct (A h I) as [J | [J K]]; [| cbn; tauto].
        rewrite H1 in J. injection J as <-. right. cbn. tauto.
      * intros t I. destruct (B t I) as [J | [J K]]; [| cbn; tauto].
        rewrite H2 in J. tauto.
      * intros _. apply C. congruence.
      * intros N. apply D. congruence.
      * intros c [<- | I] Hc; [apply C; congruence | eauto].
      * intros c [<- | I] Tc; [congruence | eauto].
    + destruct (isTransfer char) eqn:T.
      * destruct (Ht eq_refl eq_refl) as [H1 H2]. repeat split.
        -- intros h I. destruct (A h I) as [J | [J K]]; [| cbn; tauto].
           rewrite H1 in J. tauto.
        -- intros t I. destruct (B t I) as [J | [J K]]; [| cbn; tauto].
           rewrite H2 in J. injection J as <-. right. cbn. tauto.
        -- intros N. apply C. congruence.
        -- intros _. apply D. congruence.
        -- intros c [<- | I] Hc; [congruence | eauto].
        -- intros c [<- | I] Tc; [apply D; congruence | eauto].
      * rewrite (Hn eq_refl eq_refl) in *. repeat split; auto.
        -- intros h I. destruct (A h I) as [J | [J K]]; cbn; tauto.
        -- intros t I. destruct (B t I) as [J | [J K]]; cbn; tauto.
        -- intros c [<- | I] Hc; [congruence | eauto].
        -- intros c [<- | I] Tc; [congruence | eauto].
Qed.

Lemma offered_app_l seen service c :
  offered seen c -> offered (seen ++ [service]) c.
Proof.
  intros (s & chars & I & S & R & J). exists s, chars.
  repeat split; auto. apply in_or_app. tauto.
Qed.

Lemma offered_last seen service c :
  offered (seen ++ [service]) c ->
  offered seen c
  \/ isService service = true
     /\ exists chars, characteristics service = Resolved chars /\ In c chars.
Proof.
  intros (s & chars & I & S & R & J). apply in_app_or in I.
  destruct I as [I | [<- | []]].
  - left. now exists s, chars.
  - right. eauto.
Qed.

Lemma outer_loop (rest : list Service) : forall seen found0 found,
  settled seen found0 ->
  outer rest found0 = Resolved found ->
  settled (seen ++ rest) found.
Proof.
  induction rest as [| service rest IH]; intros seen found0 found S O.
  - cbn in O. injection O as <-. now rewrite app_nil_r.
  - cbn [outer] in O.
    replace (seen ++ service :: rest)%list
      with ((seen ++ [service]) ++ rest)%list
      by (now rewrite <- app_assoc).
    destruct S as (S1 & S2 & S3 & S4).
    destruct (isService service) eqn:Sv.
    + destruct (characteristics service) as [chars | m] eqn:Cs;
        [| discriminate].
      apply (IH _ (fold_left inner chars found0)); [| exact O].
      destruct (inner_loop chars found0) as (A & B & C & D & E & F).
      repeat split.
      * destruct (A h H) as [J | [J K]].
        -- apply offered_app_l. now apply S1.
        -- exists service, chars. repeat split; auto.
           apply in_or_app. cbn. tauto.
      * destruct (A h H) as [J | [J K]]; [now apply S1 | exact K].
      * destruct (B t H) as [J | [J K]].
        -- apply offered_app_l. now apply S2.
        -- exists service, chars. repeat split; auto.
           apply in_or_app. cbn. tauto.
      * destruct (B t H) as [J | [J K]]; [now apply S2 | exact K].
      * intros c Oc Hc. apply offered_last in Oc.
        destruct Oc as [Oc | (_ & chars' & R & I)].
        -- apply C. eauto.
        -- rewrite Cs in R. injection R as <-. eauto.
      * intros c Oc Tc. apply offered_last in Oc.
        destruct Oc as [Oc | (_ & chars' & R & I)].
        -- apply D. eauto.
        -- rewrite Cs in R. injection R as <-. eauto.
    + apply (IH _ found0); [| exact O].
      repeat split.
      * apply offered_app_l. now apply S1.
      * now apply S1.
      * apply offered_app_l. now apply S2.
      * now apply S2.
      * intros c Oc Hc. apply offered_last in Oc.
        destruct Oc as [Oc | (Sv' & _)]; [eauto | congruence].
      * intros c Oc Tc. apply offered_last in Oc.
        destruct Oc as [Oc | (Sv' & _)]; [eauto | congruence].
Qed.

End DiscoveryFacts.

(** X12.  The two characteristics the applications work with.  When the
    loop over the services comes to an end, a characteristic it has found
    belongs to a service with the service UUID and has the UUID looked for,
    both compared without regard to case; the handshake and the transfer
    characteristic found are never one characteristic; and the test after
    the loop finds nothing missing exactly when such services offer a
    characteristic with each of the two UUIDs. *)
Theorem found_characteristics_belong_to_the_service
    (services : list Discovery.Service) (found : Discovery.Found) :
  Discovery.findCharacteristics services = Resolved found ->
  (forall h, Discovery.handshakeCharacteristic found = Some h ->
     Discovery.offered services h
     /\ Discovery.toLowerCase (Discovery.uuid h)
        = Discovery.HANDSHAKE_CHAR_UUID)
  /\ (forall t, Discovery.transferCharacteristic found = Some t ->
        Discovery.offered services t
        /\ Discovery.toLowerCase (Discovery.uuid t)
           = Discovery.TRANSFER_CHAR_UUID)
  /\ (forall h t,
        Discovery.handshakeCharacteristic found = Some h ->
        Discovery.transferCharacteristic found = Some t ->
        Discovery.uuid h <> Discovery.uuid t)
  /\ (Discovery.missing found = false <->
      (exists h, Discovery.offered services h
                 /\ Discovery.isHandshake h = true)
      /\ (exists t, Discovery.offered services t
                    /\ Discovery.isTransfer t = true)).
Proof.
  intros O.
  assert (S0 : Discovery.settled []
                 {| Discovery.handshakeCharacteristic := None;
                    Discovery.transferCharacteristic := None |}).
  { repeat split; try discriminate;
      intros c (s & chars & [] & _). }
  destruct (DiscoveryFacts.outer_loop services [] _ found S0 O)
    as (S1 & S2 & S3 & S4).
  cbn [app] in S1, S2, S3, S4.
  split; [| split; [| split]].
  - intros h Hh. destruct (S1 h Hh) as [Oh Ih].
    split; [exact Oh | now apply DiscoveryFacts.isHandshake_uuid].
  - intros t Ht. destruct (S2 t Ht) as [Ot It].
    split; [exact Ot | now apply DiscoveryFacts.isTransfer_uuid].
  - intros h t Hh Ht E.
    destruct (S1 h Hh) as [_ Ih]. destruct (S2 t Ht) as [_ It].
    apply DiscoveryFacts.one_role in Ih.
    unfold Discovery.isTransfer in *. rewrite E in Ih. congruence.
  - unfold Discovery.missing. split.
    + destruct (Discovery.handshakeCharacteristic found) as [h |];
        [| discriminate].
      destruct (Discovery.transferCharacteristic found) as [t |];
        [| discriminate].
      intros _. split; [exists h | exists t]; auto.
    + intros [(h & Oh & Ih) (t & Ot & It)].
      pose proof (S3 h Oh Ih) as Nh. pose proof (S4 t Ot It) as Nt.
      destruct (Discovery.handshakeCharacteristic found); [| congruence].
      destruct (Discovery.transferCharacteristic found); [| congruence].
      reflexivity.
Qed.

Lemma found_characteristics_belong_to_the_service_witness :
  Discovery.toLowerCase "12345678-1234-5678-1234-56789ABCDEF1"
  = Discovery.HANDSHAKE_CHAR_UUID.
Proof.
  refine (proj2
            (proj1
               (found_characteristics_belong_to_the_service
                  [{| Discovery.serviceUuid := "0000180a-0000-1000-8000-00805f9b34fb";
                      Discovery.characteristics :=
                        Rejected "not discovered" |};
                   {| Discovery.serviceUuid :=
                        "12345678-1234-5678-1234-56789ABCDEF0";
                      Discovery.characteristics :=
                        Resolved
                          [{| Discovery.handle := 1;
                              Discovery.uuid :=
                                "12345678-1234-5678-1234-56789ABCDEF1" |};
                           {| Discovery.handle := 2;
                              Discovery.uuid :=
                                "12345678-1234-5678-1234-56789abcdef2" |}] |}]
                  {| Discovery.handshakeCharacteristic :=
                       Some {| Discovery.handle := 1;
                               Discovery.uuid :=
                                 "12345678-1234-5678-1234-56789ABCDEF1" |};
                     Discovery.transferCharacteristic :=
                       Some {| Discovery.handle := 2;
                               Discovery.uuid :=
                                 "12345678-1234-5678-1234-56789abcdef2" |} |}
                  _)
               {| Discovery.handle := 1;
                  Discovery.uuid := "12345678-1234-5678-1234-56789ABCDEF1" |}
               _)).
  - reflexivity.
  - reflexivity.
Defined.

Example last_characteristic_with_the_uuid_is_taken :
  Discovery.findCharacteristics
    [{| Discovery.serviceUuid := "12345678-1234-5678-1234-56789abcdef0";
        Discovery.characteristics :=
          Resolved
            [{| Discovery.handle := 1;
                Discovery.uuid := "12345678-1234-5678-1234-56789abcdef1" |};
             {| Discovery.handle := 2;
                Discovery.uuid := "12345678-1234-5678-1234-56789ABCDEF1" |}] |}]
  = Resolved
      {| Discovery.handshakeCharacteristic :=
           Some {| Discovery.handle := 2;
                   Discovery.uuid :=
                     "12345678-1234-5678-1234-56789ABCDEF1" |};
         Discovery.transferCharacteristic := None |}.
Proof. reflexivity. Qed.
